(** * sntp: a one-shot SNTP client (sntp.go)

    Shallow embedding of [sntp.go] and of the parts of the Go library the
    program goes through: [encoding/binary] with [binary.BigEndian] on the
    [packet] struct, [io.ReadFull], [time.Unix], [Time.Sub], [Time.Add] and
    the float64 arithmetic of [printTime] (IEEE 754 binary64, taken from the
    Standard Library's [SpecFloat]). *)

From Stdlib Require Import String.
From Stdlib Require Import ZArith List Bool Lia.
From Stdlib Require Import Strings.Byte.
From Stdlib Require Import Floats.SpecFloat.
Import ListNotations.

Local Open Scope Z_scope.

(** ** Machine integers *)

(** [uint32(z)]: the low 32 bits. *)
Definition uint32 (z : Z) : Z := z mod 2 ^ 32.

(** [int64(z)]: two's complement wrap-around on 64 bits. *)
Definition int64 (z : Z) : Z := (z + 2 ^ 63) mod 2 ^ 64 - 2 ^ 63.

(** [int8(z)]: two's complement wrap-around on 8 bits. *)
Definition int8 (z : Z) : Z := (z + 2 ^ 7) mod 2 ^ 8 - 2 ^ 7.

Definition is_uint32 (z : Z) : Prop := 0 <= z < 2 ^ 32.
Definition is_int8 (z : Z) : Prop := - 2 ^ 7 <= z < 2 ^ 7.

(** ** Bytes *)

(** [byte(z)] / [uint8(z)]: the low 8 bits of [z]. *)
Definition byte_of_Z (z : Z) : byte :=
  Byte.of_bits
    (Z.testbit z 0, (Z.testbit z 1, (Z.testbit z 2, (Z.testbit z 3,
    (Z.testbit z 4, (Z.testbit z 5, (Z.testbit z 6, Z.testbit z 7))))))).

(** The unsigned value of a byte, as [uint32(b)] widens it. *)
Definition Z_of_byte (b : byte) : Z := Z.of_N (Byte.to_N b).

(** ** The packet struct (sntp.go, lines 44-60) *)

Record packet : Type := mkPacket {
  Settings       : byte;  (* uint8 *)
  Stratum        : byte;  (* uint8 *)
  Poll           : Z;     (* int8 *)
  Precision      : Z;     (* int8 *)
  RootDelay      : Z;     (* uint32 *)
  RootDispersion : Z;
  ReferenceID    : Z;
  RefTimeSec     : Z;
  RefTimeFrac    : Z;
  OrigTimeSec    : Z;
  OrigTimeFrac   : Z;
  RxTimeSec      : Z;
  RxTimeFrac     : Z;
  TxTimeSec      : Z;
  TxTimeFrac     : Z
}.

(** The values a [packet] can hold: every field within its Go type. *)
Definition wf_packet (p : packet) : Prop :=
  is_int8 (Poll p) /\ is_int8 (Precision p) /\
  is_uint32 (RootDelay p) /\ is_uint32 (RootDispersion p) /\
  is_uint32 (ReferenceID p) /\
  is_uint32 (RefTimeSec p) /\ is_uint32 (RefTimeFrac p) /\
  is_uint32 (OrigTimeSec p) /\ is_uint32 (OrigTimeFrac p) /\
  is_uint32 (RxTimeSec p) /\ is_uint32 (RxTimeFrac p) /\
  is_uint32 (TxTimeSec p) /\ is_uint32 (TxTimeFrac p).

(** [&packet{Settings: s}]: every field left out is the zero value. *)
Definition request (s : byte) : packet :=
  mkPacket s x00 0 0 0 0 0 0 0 0 0 0 0 0 0.

(** [&packet{}] *)
Definition zero_packet : packet := request x00.

(** ** encoding/binary, big endian *)

(** [binary.BigEndian.PutUint32] *)
Definition PutUint32 (v : Z) : list byte :=
  [ byte_of_Z (Z.shiftr v 24); byte_of_Z (Z.shiftr v 16);
    byte_of_Z (Z.shiftr v 8); byte_of_Z v ].

(** [binary.BigEndian.Uint32] on the four bytes [b0 b1 b2 b3]. *)
Definition Uint32 (b0 b1 b2 b3 : byte) : Z :=
  Z.lor (Z.lor (Z.lor (Z_of_byte b3) (Z.shiftl (Z_of_byte b2) 8))
               (Z.shiftl (Z_of_byte b1) 16))
        (Z.shiftl (Z_of_byte b0) 24).

(** The encoder of [binary.Write] walks the struct fields in order and
    appends each one to its buffer. *)
Definition e_uint8 (b : byte) : list byte := [b].
Definition e_int8 (z : Z) : list byte := [byte_of_Z z].
Definition e_uint32 (v : Z) : list byte := PutUint32 v.

Definition encode (p : packet) : list byte :=
  e_uint8 (Settings p) ++ e_uint8 (Stratum p) ++
  e_int8 (Poll p) ++ e_int8 (Precision p) ++
  e_uint32 (RootDelay p) ++ e_uint32 (RootDispersion p) ++
  e_uint32 (ReferenceID p) ++
  e_uint32 (RefTimeSec p) ++ e_uint32 (RefTimeFrac p) ++
  e_uint32 (OrigTimeSec p) ++ e_uint32 (OrigTimeFrac p) ++
  e_uint32 (RxTimeSec p) ++ e_uint32 (RxTimeFrac p) ++
  e_uint32 (TxTimeSec p) ++ e_uint32 (TxTimeFrac p).

(** The size [binary.Read] and [binary.Write] compute for [packet]. *)
Definition packet_size : nat := 48.

(** The decoder of [binary.Read] keeps an offset into its buffer; here the
    buffer left to read is threaded through. *)
Definition decoder (A : Type) : Type := list byte -> option (A * list byte).

Definition dret {A} (a : A) : decoder A := fun buf => Some (a, buf).

Definition dbind {A B} (m : decoder A) (k : A -> decoder B) : decoder B :=
  fun buf =>
    match m buf with
    | Some (a, rest) => k a rest
    | None => None
    end.

Declare Scope decoder_scope.
Delimit Scope decoder_scope with dec.
Notation "x <- m ;; k" := (dbind m (fun x => k))
  (at level 61, m at next level, right associativity) : decoder_scope.

Definition d_uint8 : decoder byte :=
  fun buf =>
    match buf with
    | b :: rest => Some (b, rest)
    | [] => None
    end.

Definition d_int8 : decoder Z :=
  (b <- d_uint8 ;; dret (int8 (Z_of_byte b)))%dec.

Definition d_uint32 : decoder Z :=
  (b0 <- d_uint8 ;; b1 <- d_uint8 ;; b2 <- d_uint8 ;; b3 <- d_uint8 ;;
   dret (Uint32 b0 b1 b2 b3))%dec.

Definition d_packet : decoder packet :=
  (settings <- d_uint8 ;; stratum <- d_uint8 ;;
   poll <- d_int8 ;; precision <- d_int8 ;;
   rootDelay <- d_uint32 ;; rootDispersion <- d_uint32 ;;
   referenceID <- d_uint32 ;;
   refTimeSec <- d_uint32 ;; refTimeFrac <- d_uint32 ;;
   origTimeSec <- d_uint32 ;; origTimeFrac <- d_uint32 ;;
   rxTimeSec <- d_uint32 ;; rxTimeFrac <- d_uint32 ;;
   txTimeSec <- d_uint32 ;; txTimeFrac <- d_uint32 ;;
   dret (mkPacket settings stratum poll precision rootDelay rootDispersion
           referenceID refTimeSec refTimeFrac origTimeSec origTimeFrac
           rxTimeSec rxTimeFrac txTimeSec txTimeFrac))%dec.

(** ** Errors and the connection *)

Inductive error : Type :=
| EOF                    (* io.EOF *)
| ErrUnexpectedEOF       (* io.ErrUnexpectedEOF *)
| ErrDeadlineExceeded    (* os.ErrDeadlineExceeded, the i/o timeout *)
| ErrNet (code : nat).   (* any other error of the net package *)

(** What the connection delivers to the reads of one run: the bytes that
    arrive, and the error the read after the last of them ends with (the
    deadline passing, the connection closing, ...). [io.ReadFull] asks for
    what is still missing of its buffer until it is full or a read fails, so
    only the concatenation of the chunks read matters here. *)
Record incoming : Type := mkIncoming {
  arrived  : list byte;
  read_err : error
}.

(** [io.ReadFull(r, buf)] with [len(buf) = n], that is [io.ReadAtLeast]
    with [min = len(buf)]: the buffer when it was filled; otherwise the
    error of the failed read, [io.EOF] becoming [io.ErrUnexpectedEOF] when
    some bytes had been read. *)
Definition ReadFull (r : incoming) (n : nat) : error + list byte :=
  if (n <=? length (arrived r))%nat then inr (firstn n (arrived r))
  else
    match arrived r, read_err r with
    | _ :: _, EOF => inl ErrUnexpectedEOF
    | _, e => inl e
    end.

(** [binary.Read(conn, binary.BigEndian, data)]: read [packet_size] bytes,
    and only then decode them into the struct [data] points to. The result
    is that struct after the call, and the error returned. (The buffer
    handed to the decoder always holds [packet_size] bytes, so the last
    branch is never taken.) *)
Definition binary_Read (r : incoming) (data : packet) : packet * option error :=
  match ReadFull r packet_size with
  | inl e => (data, Some e)
  | inr buf =>
      match d_packet buf with
      | Some (p, _) => (p, None)
      | None => (data, Some ErrUnexpectedEOF)
      end
  end.

(** The same read on a connection that delivers whole datagrams, as a
    UDP connection does: each [conn.Read] of [io.ReadAtLeast]'s loop takes
    the next datagram and keeps what fits in the room left in the buffer,
    the rest of that datagram being dropped; the loop ends when the buffer
    is full or when no datagram is left and the read fails with [err].
    [room] is what is still missing, [got] what has been read. *)
Fixpoint read_datagrams (ds : list (list byte)) (err : error)
    (room : nat) (got : list byte) {struct ds} : error + list byte :=
  match room with
  | O => inr got
  | S _ =>
      match ds with
      | [] =>
          inl match got, err with
              | _ :: _, EOF => ErrUnexpectedEOF
              | _, e => e
              end
      | d :: ds' =>
          read_datagrams ds' err (room - length (firstn room d))
            (got ++ firstn room d)
      end
  end.

Definition ReadFull_datagrams (ds : list (list byte)) (err : error)
    (n : nat) : error + list byte :=
  read_datagrams ds err n [].

(** ** package time *)

(** A [time.Time] as its wall clock reading: seconds since the Unix epoch
    and nanoseconds within the second. *)
Record Time : Type := mkTime {
  sec  : Z;
  nsec : Z
}.

(** A [time.Duration] is an [int64] count of nanoseconds. *)
Definition Duration : Type := Z.

Definition Second : Duration := 1000000000.
Definition minDuration : Duration := - 2 ^ 63.
Definition maxDuration : Duration := 2 ^ 63 - 1.

(** [time.Unix(sec, nsec)]: [nsec] outside [0, 1e9) is carried into the
    seconds. Go's [/] on integers truncates: [Z.quot]. *)
Definition Unix (s n : Z) : Time :=
  if (n <? 0) || (1000000000 <=? n) then
    let q := Z.quot n 1000000000 in
    let s' := int64 (s + q) in
    let n' := int64 (n - int64 (q * 1000000000)) in
    if n' <? 0 then mkTime (int64 (s' - 1)) (n' + 1000000000)
    else mkTime s' n'
  else mkTime s n.

(** [t.Sub(u)] on wall clock readings: the difference in nanoseconds, and
    the largest or smallest [Duration] when it does not fit one. *)
Definition Sub (t u : Time) : Duration :=
  let d := (sec t - sec u) * Second + (nsec t - nsec u) in
  if d <? minDuration then minDuration
  else if maxDuration <? d then maxDuration
  else d.

(** [t.Add(d)] *)
Definition Add (t : Time) (d : Duration) : Time :=
  let dsec := Z.quot d 1000000000 in
  let n := nsec t + Z.rem d 1000000000 in
  if 1000000000 <=? n then mkTime (sec t + dsec + 1) (n - 1000000000)
  else if n <? 0 then mkTime (sec t + dsec - 1) (n + 1000000000)
  else mkTime (sec t + dsec) n.

(** ** float64 *)

(** IEEE 754 binary64: 53 bits of precision, infinities at exponent 1024. *)
Definition prec : Z := 53.
Definition emax : Z := 1024.

Definition float64 : Type := spec_float.

(** [float64(z)] for an integer [z]: the nearest float64, ties to even. *)
Definition float64_of_Z (z : Z) : float64 := binary_normalize prec emax z 0 false.

(** [x - y] on float64. *)
Definition float64_sub (x y : float64) : float64 := SFsub prec emax x y.

(** [int64(x)] for a float64 [x]: the fraction is discarded (truncation
    towards zero). Go leaves the result to the implementation when the value
    does not fit; amd64 gives the smallest int64, which is what is taken
    here. *)
Definition int64_of_float64 (x : float64) : Z :=
  match x with
  | S754_zero _ => 0
  | S754_finite s m e =>
      let t := cond_Zopp s (Z.shiftl (Zpos m) e) in
      if (- 2 ^ 63 <=? t) && (t <? 2 ^ 63) then t else - 2 ^ 63
  | S754_infinity _ | S754_nan => - 2 ^ 63
  end.

(** The integer a float64 is, when it is one. *)
Definition float64_integer (x : float64) : option Z :=
  match x with
  | S754_zero _ => Some 0
  | S754_finite s m e =>
      if 0 <=? e then Some (cond_Zopp s (Zpos m * 2 ^ e))
      else if Zpos m mod 2 ^ (- e) =? 0
           then Some (cond_Zopp s (Zpos m / 2 ^ (- e)))
           else None
  | S754_infinity _ | S754_nan => None
  end.

(** ** The program *)

Definition ntpEpochOffset : Z := 2208988800.

(** What a run does to the outside, in order. [Dial] and [SetDeadline]
    record the call, whether or not it then reports an error; [ConnWrite]
    records a datagram that went out, that is a [conn.Write] that reported
    no error. *)
Inductive event : Type :=
| Dial (network host : string)       (* net.Dial *)
| SetDeadline (t : Time)             (* conn.SetDeadline *)
| ConnWrite (bs : list byte)         (* a datagram sent by conn.Write *)
| Println_time (t : Time)            (* a time.Time on standard output *)
| Println_duration (d : Duration)    (* a time.Duration on standard output *)
| Fatal (msg : string) (e : error)   (* the message of log.Fatal / log.Fatalf *)
| Close.                             (* the deferred conn.Close *)

(** What a run is given once [flag.Parse] has returned: the value of the
    [-e] flag when the command line had one, the successive readings of
    [time.Now], and how each operation on the network goes. *)
Record world : Type := mkWorld {
  flag_e          : option string;
  clock           : nat -> Time;
  dial_err        : option error;
  setdeadline_err : option error;
  write_err       : option error;
  reply           : incoming
}.

Record state : Type := mkState {
  ticks : nat;          (* calls of time.Now so far *)
  trace : list event    (* events so far, oldest first *)
}.

(** [log.Fatal] ends the process with [os.Exit(1)]. *)
Inductive outcome (A : Type) : Type :=
| Returned (a : A)
| Exited (code : Z).
Arguments Returned {A} a.
Arguments Exited {A} code.

Definition M (A : Type) : Type := world -> state -> state * outcome A.

Definition ret {A} (a : A) : M A := fun _ st => (st, Returned a).

Definition bind {A B} (m : M A) (k : A -> M B) : M B :=
  fun w st =>
    match m w st with
    | (st', Returned a) => k a w st'
    | (st', Exited c) => (st', Exited c)
    end.

Declare Scope prog_scope.
Delimit Scope prog_scope with prog.
Notation "x <- m ;; k" := (bind m (fun x => k))
  (at level 61, m at next level, right associativity) : prog_scope.
Notation "m ;;; k" := (bind m (fun _ => k))
  (at level 61, right associativity) : prog_scope.

Definition emit (e : event) : M unit :=
  fun _ st => (mkState (ticks st) (trace st ++ [e]), Returned tt).

Definition ask : M world := fun w st => (st, Returned w).

Definition log_Fatal {A} (msg : string) (e : error) : M A :=
  fun _ st => (mkState (ticks st) (trace st ++ [Fatal msg e]), Exited 1).

Definition time_Now : M Time :=
  fun w st => (mkState (S (ticks st)) (trace st), Returned (clock w (ticks st))).

(** Run an operation that only reports an error, or nothing. *)
Definition or_fatal (res : world -> option error) (msg : string) : M unit :=
  (w <- ask ;;
   match res w with
   | Some e => log_Fatal msg e
   | None => ret tt
   end)%prog.

(** The local [secs] of [printTime], converted by [int64(secs)]. *)
Definition printTime_secs (s : Z) : Z :=
  int64_of_float64 (float64_sub (float64_of_Z s) (float64_of_Z ntpEpochOffset)).

(** The local [nanos] of [printTime]: [(int64(f) * 1e9) >> 32]. *)
Definition printTime_nanos (f : Z) : Z :=
  Z.shiftr (int64 (int64 f * 1000000000)) 32.

(** The value [printTime] builds, twice. *)
Definition timestampToLocalTime (s f : Z) : Time :=
  Unix (printTime_secs s) (printTime_nanos f).

(** [printTime] (sntp.go, lines 121-126) *)
Definition printTime (s f : Z) : M Time :=
  (emit (Println_time (timestampToLocalTime s f)) ;;;
   ret (timestampToLocalTime s f))%prog.

Definition default_host : string := "us.pool.ntp.org:123".

(** The value of the [host] variable after [flag.Parse]. *)
Definition host (w : world) : string :=
  match flag_e w with
  | Some h => h
  | None => default_host
  end.

(** [main] from the point where [flag.Parse] (line 70) has returned, up to
    its last statement (sntp.go, lines 72-119). What [flag.Parse] does with
    a command line that does not parse is in [process] below. *)
Definition main_body : M unit :=
  (w <- ask ;;
   emit (Dial "udp" (host w)) ;;;
   or_fatal dial_err "failed to connect:" ;;;
   now <- time_Now ;;
   emit (SetDeadline (Add now (5 * Second))) ;;;
   or_fatal setdeadline_err "failed to set deadline: " ;;;
   let req := request x1b in
   now <- time_Now ;;
   emit (Println_time now) ;;;
   t1 <- time_Now ;;
   or_fatal write_err "failed to send request: %v" ;;;
   emit (ConnWrite (encode req)) ;;;
   let read := binary_Read (reply w) zero_packet in
   let rsp := fst read in
   or_fatal (fun _ => snd read) "failed to read server response: %v" ;;;
   t4 <- time_Now ;;
   _ <- printTime (OrigTimeSec rsp) (OrigTimeFrac rsp) ;;
   _ <- printTime (RefTimeSec rsp) (RefTimeFrac rsp) ;;
   t2 <- printTime (RxTimeSec rsp) (RxTimeFrac rsp) ;;
   t3 <- printTime (TxTimeSec rsp) (TxTimeFrac rsp) ;;
   emit (Println_duration (Sub t2 t1)) ;;;
   emit (Println_duration (Sub t3 t4)))%prog.

(** [main]: the deferred [conn.Close] runs when the body returns, not when
    [log.Fatal] exits. *)
Definition main : M unit := (main_body ;;; emit Close)%prog.

Definition run (w : world) : state * outcome unit := main w (mkState 0 []).

(** How [flag.Parse] (line 70) ends. [flag.CommandLine] is made with
    [flag.ExitOnError]: when the command line asks for help ([-h],
    [-help]) the flag package prints the usage and calls [os.Exit(0)]; when
    it does not parse (an undefined flag, [-e] without a value, ...) the
    package prints the error and the usage and calls [os.Exit(2)]. Both
    go to standard error from inside the flag package, not through [log],
    and happen before [net.Dial]. Otherwise [flag.Parse] returns and [main]
    goes on with the value of [-e] in [host]. *)
Inductive parse_outcome : Type :=
| ParseReturns
| ParseHelp
| ParseFails.

(** A whole run of the program, from line 68: [flag.Parse], and the rest
    of [main] when it returns. *)
Definition process (po : parse_outcome) (w : world) : state * outcome unit :=
  match po with
  | ParseReturns => run w
  | ParseHelp => (mkState 0 [], Exited 0)
  | ParseFails => (mkState 0 [], Exited 2)
  end.

(** ** Reading a run *)

(** The durations a run printed, in order. *)
Definition printed_durations (tr : list event) : list Duration :=
  flat_map (fun e => match e with Println_duration d => [d] | _ => [] end) tr.

(** The times a run printed, in order. *)
Definition printed_times (tr : list event) : list Time :=
  flat_map (fun e => match e with Println_time t => [t] | _ => [] end) tr.

(** The deadlines a run put on the connection. *)
Definition deadlines (tr : list event) : list Time :=
  flat_map (fun e => match e with SetDeadline t => [t] | _ => [] end) tr.

(** What a run logged. *)
Definition logged (tr : list event) : list (string * error) :=
  flat_map (fun e => match e with Fatal msg err => [(msg, err)] | _ => [] end) tr.

(** The datagrams a run sent. *)
Definition sent (tr : list event) : list (list byte) :=
  flat_map (fun e => match e with ConnWrite bs => [bs] | _ => [] end) tr.

(** ** The wire layout *)

(** [n] bytes of [bs] from offset [off]. *)
Definition slice (off n : nat) (bs : list byte) : list byte :=
  firstn n (skipn off bs).

(** The value of a run of bytes read most significant byte first. *)
Definition be_value (bs : list byte) : Z :=
  fold_left (fun acc b => acc * 256 + Z_of_byte b) bs 0.

(** Offset and value of each [uint32] field of the struct, in order. *)
Definition uint32_fields (p : packet) : list (nat * Z) :=
  [ (4%nat, RootDelay p); (8%nat, RootDispersion p); (12%nat, ReferenceID p);
    (16%nat, RefTimeSec p); (20%nat, RefTimeFrac p);
    (24%nat, OrigTimeSec p); (28%nat, OrigTimeFrac p);
    (32%nat, RxTimeSec p); (36%nat, RxTimeFrac p);
    (40%nat, TxTimeSec p); (44%nat, TxTimeFrac p) ].

(** ** The formulas of the specification *)

(** Round-trip delay [(T4 - T1) - (T3 - T2)], in nanoseconds. *)
Definition spec_delay (t1 t2 t3 t4 : Time) : Duration :=
  Sub t4 t1 - Sub t3 t2.

(** Clock offset [((T2 - T1) + (T3 - T4)) / 2], in nanoseconds. *)
Definition spec_offset (t1 t2 t3 t4 : Time) : Duration :=
  (Sub t2 t1 + Sub t3 t4) / 2.

(** Modelled from the spec: the conversion of (epochSeconds, nanoseconds)
    to the NTP 64-bit fixed point, which sntp.go does not have. The seconds
    are counted from 1900 in a [uint32]; the fraction is the sub-second part
    in units of 2^-32 s, in a [uint32]. *)
Definition localTimeToTimestamp (es ns : Z) : Z * Z :=
  (uint32 (es + ntpEpochOffset), uint32 (ns * 2 ^ 32 / 1000000000)).

(** The instant of a [Time], in nanoseconds since the Unix epoch. *)
Definition instant (t : Time) : Z := sec t * 1000000000 + nsec t.

(** To the NTP fixed point and back through [printTime]'s conversion. *)
Definition roundtrip (es ns : Z) : Time :=
  let '(s, f) := localTimeToTimestamp es ns in timestampToLocalTime s f.

(** [t] is at most one nanosecond away from (es, ns). *)
Definition within_1ns (t : Time) (es ns : Z) : Prop :=
  Z.abs (instant t - (es * 1000000000 + ns)) <= 1.

(** ** Sample runs *)

(** A reply whose receive and transmit timestamps are 1 s and 2 s after the
    Unix epoch. *)
Definition reply_1_2 : packet :=
  mkPacket x1c x02 0 0 0 0 0 0 0 0 0
    (ntpEpochOffset + 1) 0 (ntpEpochOffset + 2) 0.

(** A run with T1 = 0 s and T4 = 4 s on the local clock and [reply_1_2]
    from the server. *)
Definition world_0_1_2_4 : world :=
  mkWorld None
    (fun n => match n with 3%nat => mkTime 4 0 | _ => mkTime 0 0 end)
    None None None (mkIncoming (encode reply_1_2) ErrDeadlineExceeded).

(** The reply of the end-to-end scenario: receive timestamp
    (3913056000, 0), transmit timestamp (3913056000, 0x80000000). *)
Definition reply_2024 : packet :=
  mkPacket x1c x02 0 0 0 0 0 0 0 0 0 3913056000 0 3913056000 2147483648.

Definition world_2024 : world :=
  mkWorld (Some "time.example.org:123"%string)
    (fun n => mkTime (1704067200 + Z.of_nat n) 0)
    None None None (mkIncoming (encode reply_2024) ErrDeadlineExceeded).

(** A run where the deadline cannot be set. *)
Definition world_no_deadline : world :=
  mkWorld None (fun n => mkTime (Z.of_nat n) 0)
    None (Some (ErrNet 1)) None (mkIncoming [] ErrDeadlineExceeded).

(** A run where two bytes come back and then the deadline passes. *)
Definition world_short : world :=
  mkWorld None (fun n => mkTime (Z.of_nat n) 0)
    None None None (mkIncoming [x1c; x02] ErrDeadlineExceeded).

(** A run where nothing comes back before the deadline. *)
Definition world_silent : world :=
  mkWorld None (fun n => mkTime (Z.of_nat n) 0)
    None None None (mkIncoming [] ErrDeadlineExceeded).

(** * Facts *)

(** ** Bytes and big-endian words *)

Lemma byte_of_Z_of_byte (b : byte) : byte_of_Z (Z_of_byte b) = b.
Proof. destruct b; reflexivity. Qed.

Lemma byte_of_Z_mod (z : Z) : byte_of_Z (z mod 2 ^ 8) = byte_of_Z z.
Proof.
  unfold byte_of_Z.
  repeat (rewrite (Z.mod_pow2_bits_low z 8) by lia). reflexivity.
Qed.

Lemma Z_of_byte_of_Z_small (z : Z) : 0 <= z < 256 -> Z_of_byte (byte_of_Z z) = z.
Proof.
  intros Hz.
  destruct (Byte.of_N (Z.to_N z)) as [b|] eqn:E.
  - apply Byte.to_of_N in E.
    assert (Hb : Z_of_byte b = z) by (unfold Z_of_byte; rewrite E; lia).
    rewrite <- Hb at 1. rewrite byte_of_Z_of_byte. exact Hb.
  - apply Byte.of_N_None_iff in E. lia.
Qed.

Lemma Z_of_byte_of_Z (z : Z) : Z_of_byte (byte_of_Z z) = z mod 2 ^ 8.
Proof.
  rewrite <- byte_of_Z_mod. apply Z_of_byte_of_Z_small.
  change (2 ^ 8) with 256. apply Z.mod_pos_bound. lia.
Qed.

Lemma be_value_PutUint32 (v : Z) : is_uint32 v -> be_value (PutUint32 v) = v.
Proof.
  unfold is_uint32, be_value, PutUint32. intros Hv. cbv [fold_left].
  rewrite !Z_of_byte_of_Z, !Z.shiftr_div_pow2 by lia.
  change (2 ^ 32) with 4294967296 in Hv.
  change (2 ^ 24) with 16777216. change (2 ^ 16) with 65536.
  change (2 ^ 8) with 256.
  assert (E1 : v / 65536 = v / 256 / 256)
    by (rewrite Z.div_div by lia; reflexivity).
  assert (E2 : v / 16777216 = v / 65536 / 256)
    by (rewrite Z.div_div by lia; reflexivity).
  rewrite E2, E1.
  Z.to_euclidean_division_equations; lia.
Qed.

Lemma Z_of_byte_range (b : byte) : 0 <= Z_of_byte b < 256.
Proof. unfold Z_of_byte. pose proof (Byte.to_N_bounded b). lia. Qed.

(** ** The codec *)

Lemma encode_length (p : packet) : length (encode p) = packet_size.
Proof. reflexivity. Qed.

Lemma encode_request (s : byte) : encode (request s) = s :: repeat x00 47.
Proof. reflexivity. Qed.

Lemma d_packet_total (buf : list byte) :
  length buf = packet_size -> exists p, d_packet buf = Some (p, []).
Proof.
  unfold packet_size. intros H.
  do 48 (destruct buf as [|? buf]; [discriminate H|]).
  destruct buf; [|discriminate H].
  eexists. cbv [d_packet dbind d_uint8 d_int8 d_uint32 dret]. reflexivity.
Qed.

Lemma ReadFull_enough (r : incoming) (n : nat) :
  (n <= length (arrived r))%nat -> ReadFull r n = inr (firstn n (arrived r)).
Proof.
  intros H. unfold ReadFull.
  apply Nat.leb_le in H. rewrite H. reflexivity.
Qed.

Lemma ReadFull_short (r : incoming) (n : nat) :
  (length (arrived r) < n)%nat ->
  ReadFull r n = inl match arrived r, read_err r with
                     | _ :: _, EOF => ErrUnexpectedEOF
                     | _, e => e
                     end.
Proof.
  intros H. unfold ReadFull.
  apply Nat.leb_gt in H. rewrite H.
  destruct (arrived r); destruct (read_err r); reflexivity.
Qed.

(** [binary.Read] either fails and leaves the struct as it was, or fills
    it from the first [packet_size] bytes. *)
Lemma binary_Read_cases (r : incoming) (data : packet) :
  (exists e, binary_Read r data = (data, Some e))
  \/ (exists p, binary_Read r data = (p, None)
              /\ d_packet (firstn packet_size (arrived r)) = Some (p, [])).
Proof.
  unfold binary_Read.
  destruct (Nat.le_gt_cases packet_size (length (arrived r))) as [Hl|Hl].
  - right. rewrite ReadFull_enough by assumption.
    destruct (d_packet_total (firstn packet_size (arrived r))) as [p Hp];
      [apply firstn_length_le; exact Hl|].
    exists p. rewrite Hp. split; reflexivity.
  - left. rewrite ReadFull_short by assumption. eauto.
Qed.

Lemma testbit_Z_of_byte_of_Z (z n : Z) :
  Z.testbit (Z_of_byte (byte_of_Z z)) n = (n <? 8) && Z.testbit z n.
Proof.
  rewrite Z_of_byte_of_Z. apply Z.testbit_mod_pow2. lia.
Qed.

Lemma Uint32_PutUint32 (v : Z) :
  is_uint32 v ->
  Uint32 (byte_of_Z (Z.shiftr v 24)) (byte_of_Z (Z.shiftr v 16))
         (byte_of_Z (Z.shiftr v 8)) (byte_of_Z v) = v.
Proof.
  intros Hv. unfold Uint32. apply Z.bits_inj'. intros n Hn.
  assert (Hhigh : 32 <= n -> Z.testbit v n = false).
  { intros H. unfold is_uint32 in Hv.
    destruct (Z.eq_dec v 0) as [->|]; [apply Z.bits_0|].
    apply Z.bits_above_log2; [lia|].
    apply Z.log2_lt_pow2; [lia|].
    apply Z.lt_le_trans with (2 ^ 32); [lia|].
    apply Z.pow_le_mono_r; lia. }
  assert (Hbyte : forall k m, 0 <= m ->
            Z.testbit (Z_of_byte (byte_of_Z (Z.shiftr v k))) m
            = (m <? 8) && Z.testbit v (m + k)).
  { intros k m Hm. rewrite testbit_Z_of_byte_of_Z, Z.shiftr_spec by lia.
    reflexivity. }
  rewrite !Z.lor_spec. rewrite 3 Z.shiftl_spec by lia.
  rewrite testbit_Z_of_byte_of_Z.
  destruct (Z_lt_le_dec n 8) as [H8|H8].
  - rewrite (Z.testbit_neg_r _ (n - 8)), (Z.testbit_neg_r _ (n - 16)),
      (Z.testbit_neg_r _ (n - 24)) by lia.
    destruct (Z.ltb_spec n 8); [|lia]. rewrite !orb_false_r. reflexivity.
  - destruct (Z.ltb_spec n 8); [lia|]. cbn [andb orb].
    rewrite (Hbyte 8) by lia. replace (n - 8 + 8) with n by lia.
    destruct (Z_lt_le_dec n 16) as [H16|H16].
    + rewrite (Z.testbit_neg_r _ (n - 16)), (Z.testbit_neg_r _ (n - 24))
        by lia.
      destruct (Z.ltb_spec (n - 8) 8); [|lia]. rewrite !orb_false_r.
      reflexivity.
    + destruct (Z.ltb_spec (n - 8) 8); [lia|]. cbn [andb orb].
      rewrite (Hbyte 16) by lia. replace (n - 16 + 16) with n by lia.
      destruct (Z_lt_le_dec n 24) as [H24|H24].
      * rewrite (Z.testbit_neg_r _ (n - 24)) by lia.
        destruct (Z.ltb_spec (n - 16) 8); [|lia]. rewrite !orb_false_r.
        reflexivity.
      * destruct (Z.ltb_spec (n - 16) 8); [lia|]. cbn [andb orb].
        rewrite (Hbyte 24) by lia. replace (n - 24 + 24) with n by lia.
        destruct (Z.ltb_spec (n - 24) 8); [reflexivity|].
        rewrite Hhigh by lia. reflexivity.
Qed.

Lemma int8_byte_roundtrip (z : Z) :
  is_int8 z -> int8 (Z_of_byte (byte_of_Z z)) = z.
Proof.
  unfold is_int8, int8. intros Hz. rewrite Z_of_byte_of_Z.
  change (2 ^ 7) with 128 in *. change (2 ^ 8) with 256.
  rewrite Zplus_mod_idemp_l.
  rewrite (Z.mod_small (z + 128) 256) by lia. lia.
Qed.

(** The decoder undoes the encoder on every packet. *)
Lemma d_packet_encode (p : packet) :
  wf_packet p -> d_packet (encode p) = Some (p, []).
Proof.
  destruct p as [se st po pr rd rp ri rs rf os0 of0 xs xf ts tf].
  unfold wf_packet. simpl.
  intros (P1 & P2 & H1 & H2 & H3 & H4 & H5 & H6 & H7 & H8 & H9 & H10 & H11).
  cbv [d_packet dbind d_uint8 d_int8 d_uint32 dret encode e_uint8 e_int8
       e_uint32 PutUint32 app Settings Stratum Poll Precision RootDelay
       RootDispersion ReferenceID RefTimeSec RefTimeFrac OrigTimeSec
       OrigTimeFrac RxTimeSec RxTimeFrac TxTimeSec TxTimeFrac].
  rewrite !Uint32_PutUint32 by assumption.
  rewrite !int8_byte_roundtrip by assumption.
  reflexivity.
Qed.

(** [binary.Read] undoes [binary.Write] on every packet. *)
Lemma binary_Read_encode (p data : packet) (e : error) :
  wf_packet p -> binary_Read (mkIncoming (encode p) e) data = (p, None).
Proof.
  intros Hp. unfold binary_Read.
  rewrite ReadFull_enough by (cbn [arrived]; rewrite encode_length; lia).
  cbn [arrived]. rewrite <- (encode_length p), firstn_all.
  rewrite d_packet_encode by assumption. reflexivity.
Qed.

(** ** float64 on integers *)

Lemma digits2_pos_bounds (p : positive) :
  2 ^ (Zpos (digits2_pos p) - 1) <= Zpos p < 2 ^ Zpos (digits2_pos p).
Proof.
  induction p as [p IH|p IH|]; cbn [digits2_pos].
  - rewrite Pos2Z.inj_succ, (Pos2Z.inj_xI p).
    replace (Z.succ (Zpos (digits2_pos p)) - 1) with (Z.succ (Zpos (digits2_pos p) - 1)) by lia.
    rewrite !Z.pow_succ_r by lia.
    generalize dependent (2 ^ (Zpos (digits2_pos p) - 1)).
    generalize (2 ^ Zpos (digits2_pos p)). intros; lia.
  - rewrite Pos2Z.inj_succ, (Pos2Z.inj_xO p).
    replace (Z.succ (Zpos (digits2_pos p)) - 1) with (Z.succ (Zpos (digits2_pos p) - 1)) by lia.
    rewrite !Z.pow_succ_r by lia.
    generalize dependent (2 ^ (Zpos (digits2_pos p) - 1)).
    generalize (2 ^ Zpos (digits2_pos p)). intros; lia.
  - cbn. lia.
Qed.

Lemma digits2_pos_unique (p : positive) (d : Z) :
  2 ^ (d - 1) <= Zpos p < 2 ^ d -> Zpos (digits2_pos p) = d.
Proof.
  intros [Hl Hu]. pose proof (digits2_pos_bounds p) as [Bl Bu].
  set (e := Zpos (digits2_pos p)) in *.
  assert (0 < e) by (subst e; lia).
  assert (0 < d).
  { destruct (Z_lt_le_dec 0 d); [assumption|].
    assert (2 ^ d <= 1); [|lia].
    destruct (Z.eq_dec d 0) as [->|]; [cbn; lia|].
    rewrite Z.pow_neg_r by lia. lia. }
  destruct (Z_lt_le_dec e d).
  - assert (2 ^ e <= 2 ^ (d - 1)) by (apply Z.pow_le_mono_r; lia). lia.
  - destruct (Z_lt_le_dec d e); [|lia].
    assert (2 ^ d <= 2 ^ (e - 1)) by (apply Z.pow_le_mono_r; lia). lia.
Qed.

Lemma iter_xO_value (m d : positive) :
  Zpos (Pos.iter xO m d) = Zpos m * 2 ^ Zpos d.
Proof.
  induction d as [|d IH] using Pos.peano_ind.
  - cbn [Pos.iter]. rewrite (Pos2Z.inj_xO m). change (2 ^ 1) with 2. lia.
  - rewrite Pos.iter_succ, (Pos2Z.inj_xO (Pos.iter xO m d)), IH,
      Pos2Z.inj_succ, Z.pow_succ_r by lia. lia.
Qed.

Lemma shr_1_double (a : Z) :
  shr_1 (Build_shr_record (2 * a) false false) = Build_shr_record a false false.
Proof. destruct a; reflexivity. Qed.

Lemma iter_pos_shr_1_exact (n : positive) : forall q : Z,
  iter_pos shr_1 n (Build_shr_record (q * 2 ^ Zpos n) false false)
  = Build_shr_record q false false.
Proof.
  induction n as [n IH|n IH|]; intros q; cbn [iter_pos].
  - replace (q * 2 ^ Zpos n~1) with (2 * ((q * 2 ^ Zpos n) * 2 ^ Zpos n)).
    + rewrite shr_1_double, IH, IH. reflexivity.
    + rewrite (Pos2Z.inj_xI n), Z.pow_add_r, Z.pow_mul_r by lia.
      change (2 ^ 2) with 4. change (2 ^ 1) with 2.
      replace (4 ^ Zpos n) with (2 ^ Zpos n * 2 ^ Zpos n)
        by (rewrite <- Z.pow_mul_l; reflexivity).
      ring.
  - replace (q * 2 ^ Zpos n~0) with ((q * 2 ^ Zpos n) * 2 ^ Zpos n).
    + rewrite IH, IH. reflexivity.
    + rewrite (Pos2Z.inj_xO n), Z.pow_mul_r by lia. change (2 ^ 2) with 4.
      replace (4 ^ Zpos n) with (2 ^ Zpos n * 2 ^ Zpos n)
        by (rewrite <- Z.pow_mul_l; reflexivity).
      ring.
  - change (2 ^ 1) with 2. rewrite Z.mul_comm. apply shr_1_double.
Qed.

Lemma fexp_normal (x : Z) : -1021 <= x -> fexp prec emax x = x - 53.
Proof. unfold fexp, emin, prec, emax. lia. Qed.

Lemma digits2_pos_scaled (a M : positive) (k : Z) :
  0 <= k -> Zpos M = Zpos a * 2 ^ k ->
  Zpos (digits2_pos M) = Zpos (digits2_pos a) + k.
Proof.
  intros Hk HM. apply digits2_pos_unique.
  pose proof (digits2_pos_bounds a) as [Bl Bu].
  assert (0 < 2 ^ k) by (apply Z.pow_pos_nonneg; lia).
  rewrite HM.
  replace (Zpos (digits2_pos a) + k - 1) with (Zpos (digits2_pos a) - 1 + k) by lia.
  rewrite !Z.pow_add_r by lia.
  split; [apply Z.mul_le_mono_nonneg_r; lia | apply Z.mul_lt_mono_pos_r; lia].
Qed.

Lemma shr_fexp_canonical (m : positive) (e : Z) :
  Zpos (digits2_pos m) = 53 -> -1074 <= e ->
  shr_fexp prec emax (Zpos m) e loc_Exact
  = (Build_shr_record (Zpos m) false false, e).
Proof.
  intros Hd He. unfold shr_fexp. cbn [Zdigits2 shr_record_of_loc].
  rewrite Hd, fexp_normal by lia.
  replace (53 + e - 53 - e) with 0 by lia. reflexivity.
Qed.

Lemma binary_round_aux_canonical (sx : bool) (m : positive) (e : Z) :
  Zpos (digits2_pos m) = 53 -> -1074 <= e <= 971 ->
  binary_round_aux prec emax sx (Zpos m) e loc_Exact = S754_finite sx m e.
Proof.
  intros Hd He. unfold binary_round_aux.
  rewrite shr_fexp_canonical by lia.
  cbn [shr_m loc_of_shr_record round_nearest_even].
  rewrite shr_fexp_canonical by lia. cbn [shr_m].
  unfold emax, prec.
  destruct (Z.leb_spec e (1024 - 53)); [reflexivity | lia].
Qed.

Lemma binary_round_aux_shift (sx : bool) (M q : positive) (e : Z) (n : positive) :
  Zpos M = Zpos q * 2 ^ Zpos n ->
  Zpos (digits2_pos q) = 53 ->
  -1074 <= e -> e + Zpos n <= 971 ->
  binary_round_aux prec emax sx (Zpos M) e loc_Exact
  = S754_finite sx q (e + Zpos n).
Proof.
  intros HM Hd He1 He2. unfold binary_round_aux.
  assert (HdM : Zpos (digits2_pos M) = 53 + Zpos n)
    by (rewrite (digits2_pos_scaled q M (Zpos n)); lia).
  assert (E : shr_fexp prec emax (Zpos M) e loc_Exact
              = (Build_shr_record (Zpos q) false false, e + Zpos n)).
  { unfold shr_fexp. cbn [Zdigits2 shr_record_of_loc].
    rewrite HdM, fexp_normal by lia.
    replace (53 + Zpos n + e - 53 - e) with (Zpos n) by lia.
    cbn [shr]. rewrite HM, iter_pos_shr_1_exact. reflexivity. }
  rewrite E. cbn [shr_m loc_of_shr_record round_nearest_even].
  rewrite shr_fexp_canonical by lia. cbn [shr_m].
  unfold emax, prec.
  destruct (Z.leb_spec (e + Zpos n) (1024 - 53)); [reflexivity | lia].
Qed.

(** Rounding a value with at most 53 significant bits changes nothing:
    [M * 2^(-k)] with [M = a * 2^k] and [a < 2^53] comes out as the
    canonical float of value [a]. *)
Lemma binary_round_exact (sx : bool) (a M : positive) (k : Z) :
  Zpos a < 2 ^ 53 -> 0 <= k <= 1000 -> Zpos M = Zpos a * 2 ^ k ->
  exists m : positive,
    binary_round prec emax sx M (- k)
    = S754_finite sx m (Zpos (digits2_pos a) - 53)
    /\ Zpos m = Zpos a * 2 ^ (53 - Zpos (digits2_pos a)).
Proof.
  intros Ha Hk HM.
  pose proof (digits2_pos_bounds a) as [Bl Bu].
  set (d := Zpos (digits2_pos a)) in *.
  assert (Hd1 : 1 <= d) by (subst d; lia).
  assert (Hd53 : d <= 53).
  { destruct (Z_lt_le_dec 53 d); [|lia].
    assert (2 ^ 53 <= 2 ^ (d - 1)) by (apply Z.pow_le_mono_r; lia). lia. }
  assert (HdM : Zpos (digits2_pos M) = d + k)
    by (apply (digits2_pos_scaled a M k); lia).
  unfold binary_round. rewrite HdM.
  replace (d + k + - k) with d by lia. rewrite fexp_normal by lia.
  unfold shl_align.
  destruct (d - 53 - - k) as [|n|c] eqn:En.
  - (* already canonical *)
    exists M. split.
    + replace (- k) with (d - 53) by lia.
      apply binary_round_aux_canonical; lia.
    + rewrite HM. f_equal. f_equal. lia.
  - (* shift right by n, no bit lost *)
    assert (Hq : 0 < Zpos a * 2 ^ (53 - d))
      by (apply Z.mul_pos_pos; [lia | apply Z.pow_pos_nonneg; lia]).
    destruct (Zpos a * 2 ^ (53 - d)) as [|q|q] eqn:Eq; try lia.
    exists q. split; [|reflexivity].
    replace (d - 53) with (- k + Zpos n) by lia.
    apply binary_round_aux_shift; try lia.
    + rewrite HM, <- Eq, <- Z.mul_assoc, <- Z.pow_add_r by lia.
      f_equal. f_equal. lia.
    + rewrite (digits2_pos_scaled a q (53 - d)); lia.
  - (* shift left by c *)
    exists (Pos.iter xO M c). split.
    + apply binary_round_aux_canonical; [|lia].
      rewrite (digits2_pos_scaled M _ (Zpos c)); try lia.
      apply iter_xO_value.
    + rewrite iter_xO_value, HM, <- Z.mul_assoc, <- Z.pow_add_r by lia.
      f_equal. f_equal. lia.
Qed.

Lemma digits2_pos_le (a : positive) (n : Z) :
  0 <= n -> Zpos a < 2 ^ n -> Zpos (digits2_pos a) <= n.
Proof.
  intros Hn Ha. pose proof (digits2_pos_bounds a) as [Bl _].
  destruct (Z_lt_le_dec n (Zpos (digits2_pos a))); [|lia].
  assert (2 ^ n <= 2 ^ (Zpos (digits2_pos a) - 1))
    by (apply Z.pow_le_mono_r; lia).
  lia.
Qed.

Lemma shl_align_value (mx : positive) (ex ex' : Z) :
  ex' <= ex -> Zpos (fst (shl_align mx ex ex')) = Zpos mx * 2 ^ (ex - ex').
Proof.
  intros H. unfold shl_align.
  destruct (ex' - ex) as [|c|c] eqn:E; try lia; cbn [fst].
  - replace (ex - ex') with 0 by lia. lia.
  - rewrite iter_xO_value. f_equal. f_equal. lia.
Qed.

(** A finite float whose mantissa is [a] shifted left by [-e] bits is the
    integer [a]. *)
Lemma exact_float_reads (sx : bool) (m a : positive) (e : Z) :
  e <= 0 -> Zpos m = Zpos a * 2 ^ (- e) -> Zpos a < 2 ^ 63 ->
  float64_integer (S754_finite sx m e) = Some (cond_Zopp sx (Zpos a))
  /\ int64_of_float64 (S754_finite sx m e) = cond_Zopp sx (Zpos a).
Proof.
  intros He Hm Ha.
  assert (Hp : 0 < 2 ^ (- e)) by (apply Z.pow_pos_nonneg; lia).
  assert (Hsh : Z.shiftl (Zpos m) e = Zpos a).
  { rewrite <- (Z.opp_involutive e) at 1. rewrite Z.shiftl_opp_r.
    rewrite Z.shiftr_div_pow2 by lia. rewrite Hm. apply Z.div_mul. lia. }
  split; cycle 1.
  - unfold int64_of_float64. rewrite Hsh.
    assert (R : - 2 ^ 63 <= cond_Zopp sx (Zpos a) < 2 ^ 63)
      by (destruct sx; cbn [cond_Zopp]; lia).
    destruct (Z.leb_spec (- 2 ^ 63) (cond_Zopp sx (Zpos a))); [|lia].
    destruct (Z.ltb_spec (cond_Zopp sx (Zpos a)) (2 ^ 63)); [|lia].
    reflexivity.
  - unfold float64_integer.
    destruct (Z.leb_spec 0 e).
    + assert (e = 0) by lia. subst e. cbn in Hm. rewrite Hm.
      do 2 f_equal. cbn. lia.
    + rewrite Hm, Z.mod_mul, Z.div_mul by lia. reflexivity.
Qed.

Lemma float64_of_Z_pos (a : positive) :
  Zpos a < 2 ^ 53 ->
  exists m : positive,
    float64_of_Z (Zpos a) = S754_finite false m (Zpos (digits2_pos a) - 53)
    /\ Zpos m = Zpos a * 2 ^ (53 - Zpos (digits2_pos a)).
Proof.
  intros Ha. unfold float64_of_Z, binary_normalize.
  change 0 with (- 0). apply binary_round_exact; [assumption | lia | cbn; lia].
Qed.

Lemma float64_of_ntpEpochOffset :
  float64_of_Z ntpEpochOffset = S754_finite false 4632585279897600 (-21).
Proof. reflexivity. Qed.

(** [float64(s) - ntpEpochOffset] is the integer [s - ntpEpochOffset], and
    [int64] reads it back, for every [uint32] value [s]. *)
Lemma secs_exact (s : Z) :
  is_uint32 s ->
  float64_integer (float64_sub (float64_of_Z s) (float64_of_Z ntpEpochOffset))
  = Some (s - ntpEpochOffset)
  /\ printTime_secs s = s - ntpEpochOffset.
Proof.
  unfold is_uint32, printTime_secs. intros [Hs0 Hs1].
  destruct s as [|a|a]; [split; reflexivity | | lia].
  assert (Ha53 : Zpos a < 2 ^ 53)
    by (apply Z.lt_trans with (2 ^ 32); [assumption | reflexivity]).
  destruct (float64_of_Z_pos a Ha53) as (mx & -> & Hmx).
  rewrite float64_of_ntpEpochOffset.
  pose proof (digits2_pos_le a 32 ltac:(lia) Hs1) as Hd32.
  pose proof (digits2_pos_bounds a) as [Bl _].
  set (d := Zpos (digits2_pos a)) in *.
  assert (Hd1 : 1 <= d) by (subst d; lia).
  unfold float64_sub, SFsub.
  rewrite (Z.min_l (d - 53) (-21)) by lia.
  cbn [cond_Zopp].
  rewrite !shl_align_value by lia. rewrite Hmx.
  replace (d - 53 - (d - 53)) with 0 by lia.
  replace (-21 - (d - 53)) with (53 - d - 21) by lia.
  change (Zpos 4632585279897600) with (ntpEpochOffset * 2 ^ 21).
  assert (Hk : 0 < 2 ^ (53 - d)) by (apply Z.pow_pos_nonneg; lia).
  assert (E : Zpos a * 2 ^ (53 - d) * 2 ^ 0
              - ntpEpochOffset * 2 ^ 21 * 2 ^ (53 - d - 21)
              = (Zpos a - ntpEpochOffset) * 2 ^ (53 - d)).
  { rewrite <- (Z.mul_assoc ntpEpochOffset), <- Z.pow_add_r by lia.
    replace (21 + (53 - d - 21)) with (53 - d) by lia.
    change (2 ^ 0) with 1. ring. }
  rewrite E. clear E.
  replace (d - 53) with (- (53 - d)) by lia.
  assert (Hrange : - 2 ^ 53 < Zpos a - ntpEpochOffset < 2 ^ 53).
  { unfold ntpEpochOffset. change (2 ^ 32) with 4294967296 in Hs1.
    change (2 ^ 53) with 9007199254740992. lia. }
  destruct (Zpos a - ntpEpochOffset) as [|z|z] eqn:Ez.
  - split; reflexivity.
  - destruct ((Zpos z) * 2 ^ (53 - d)) as [|M|M] eqn:EM; try lia.
    unfold binary_normalize.
    destruct (binary_round_exact false z M (53 - d)) as (m & -> & Hm);
      [lia | lia | lia |].
    pose proof (digits2_pos_le z 53 ltac:(lia) ltac:(lia)).
    apply (exact_float_reads false m z); try lia.
    rewrite Hm. f_equal. f_equal. lia.
  - destruct ((Zneg z) * 2 ^ (53 - d)) as [|M|M] eqn:EM; try lia.
    unfold binary_normalize.
    destruct (binary_round_exact true z M (53 - d)) as (m & -> & Hm);
      [lia | lia | lia |].
    pose proof (digits2_pos_le z 53 ltac:(lia) ltac:(lia)).
    apply (exact_float_reads true m z); try lia.
    rewrite Hm. f_equal. f_equal. lia.
Qed.

(** ** Runs of the program *)

Ltac run_unfold :=
  cbv [run main main_body bind ask emit or_fatal log_Fatal time_Now ret
       printTime ticks trace app].

Lemma run_dial_fails (w : world) (e : error) :
  dial_err w = Some e ->
  run w = (mkState 0 [Dial "udp"%string (host w); Fatal "failed to connect:"%string e], Exited 1).
Proof. intros H. run_unfold. rewrite H. reflexivity. Qed.

Lemma run_setdeadline_fails (w : world) (e : error) :
  dial_err w = None -> setdeadline_err w = Some e ->
  run w = (mkState 1 [Dial "udp"%string (host w);
                      SetDeadline (Add (clock w 0) (5 * Second));
                      Fatal "failed to set deadline: "%string e], Exited 1).
Proof. intros H1 H2. run_unfold. rewrite H1, H2. reflexivity. Qed.

Lemma run_write_fails (w : world) (e : error) :
  dial_err w = None -> setdeadline_err w = None -> write_err w = Some e ->
  run w = (mkState 3 [Dial "udp"%string (host w);
                      SetDeadline (Add (clock w 0) (5 * Second));
                      Println_time (clock w 1);
                      Fatal "failed to send request: %v"%string e], Exited 1).
Proof. intros H1 H2 H3. run_unfold. rewrite H1, H2, H3. reflexivity. Qed.

Lemma run_read_fails (w : world) (e : error) :
  dial_err w = None -> setdeadline_err w = None -> write_err w = None ->
  binary_Read (reply w) zero_packet = (zero_packet, Some e) ->
  run w = (mkState 3 [Dial "udp"%string (host w);
                      SetDeadline (Add (clock w 0) (5 * Second));
                      Println_time (clock w 1);
                      ConnWrite (encode (request x1b));
                      Fatal "failed to read server response: %v"%string e], Exited 1).
Proof. intros H1 H2 H3 H4. run_unfold. rewrite H1, H2, H3, H4. reflexivity. Qed.

Lemma run_ok (w : world) (rsp : packet) :
  dial_err w = None -> setdeadline_err w = None -> write_err w = None ->
  binary_Read (reply w) zero_packet = (rsp, None) ->
  run w = (mkState 4 [Dial "udp"%string (host w);
                      SetDeadline (Add (clock w 0) (5 * Second));
                      Println_time (clock w 1);
                      ConnWrite (encode (request x1b));
                      Println_time (timestampToLocalTime (OrigTimeSec rsp) (OrigTimeFrac rsp));
                      Println_time (timestampToLocalTime (RefTimeSec rsp) (RefTimeFrac rsp));
                      Println_time (timestampToLocalTime (RxTimeSec rsp) (RxTimeFrac rsp));
                      Println_time (timestampToLocalTime (TxTimeSec rsp) (TxTimeFrac rsp));
                      Println_duration
                        (Sub (timestampToLocalTime (RxTimeSec rsp) (RxTimeFrac rsp)) (clock w 2));
                      Println_duration
                        (Sub (timestampToLocalTime (TxTimeSec rsp) (TxTimeFrac rsp)) (clock w 3));
                      Close], Returned tt).
Proof. intros H1 H2 H3 H4. run_unfold. rewrite H1, H2, H3, H4. reflexivity. Qed.

(** ** Integer arithmetic of [printTime] *)

Lemma int64_small (z : Z) : - 2 ^ 63 <= z < 2 ^ 63 -> int64 z = z.
Proof.
  intros H. unfold int64.
  change (2 ^ 64) with (2 * 2 ^ 63) in *.
  rewrite Z.mod_small; lia.
Qed.

Lemma nanos_product_fits (f : Z) :
  is_uint32 f -> 0 <= f * 1000000000 <= 4294967295000000000.
Proof. unfold is_uint32. change (2 ^ 32) with 4294967296. lia. Qed.

Lemma printTime_nanos_eq (f : Z) :
  is_uint32 f -> printTime_nanos f = f * 1000000000 / 2 ^ 32.
Proof.
  intros Hf. pose proof (nanos_product_fits f Hf) as Hp.
  unfold printTime_nanos. unfold is_uint32 in Hf.
  change (2 ^ 32) with 4294967296 in Hf.
  rewrite (int64_small f) by (change (2 ^ 63) with 9223372036854775808; lia).
  rewrite int64_small by (change (2 ^ 63) with 9223372036854775808; lia).
  apply Z.shiftr_div_pow2. lia.
Qed.

Lemma printTime_nanos_range (f : Z) :
  is_uint32 f -> 0 <= printTime_nanos f < 1000000000.
Proof.
  intros Hf. rewrite printTime_nanos_eq by assumption.
  unfold is_uint32 in Hf. change (2 ^ 32) with 4294967296 in *.
  split.
  - apply Z.div_pos; lia.
  - apply Z.div_lt_upper_bound; lia.
Qed.

Lemma Unix_normal (s n : Z) : 0 <= n < 1000000000 -> Unix s n = mkTime s n.
Proof.
  intros H. unfold Unix.
  destruct (Z.ltb_spec n 0); [lia|].
  destruct (Z.leb_spec 1000000000 n); [lia|]. reflexivity.
Qed.

Lemma timestampToLocalTime_eq (s f : Z) :
  is_uint32 s -> is_uint32 f ->
  timestampToLocalTime s f
  = mkTime (s - ntpEpochOffset) (f * 1000000000 / 2 ^ 32).
Proof.
  intros Hs Hf. unfold timestampToLocalTime.
  rewrite Unix_normal by (apply printTime_nanos_range; assumption).
  rewrite printTime_nanos_eq by assumption.
  destruct (secs_exact s Hs) as [_ ->]. reflexivity.
Qed.

Lemma float64_of_uint32_exact (s : Z) :
  is_uint32 s -> float64_integer (float64_of_Z s) = Some s.
Proof.
  unfold is_uint32. intros [Hs0 Hs1].
  destruct s as [|a|a]; [reflexivity | | lia].
  assert (Ha53 : Zpos a < 2 ^ 53)
    by (apply Z.lt_trans with (2 ^ 32); [assumption | reflexivity]).
  destruct (float64_of_Z_pos a Ha53) as (m & -> & Hm).
  pose proof (digits2_pos_le a 53 ltac:(lia) Ha53).
  apply (exact_float_reads false m a); try lia.
  rewrite Hm. f_equal. f_equal. lia.
Qed.

(** No NTP timestamp is converted to a time at or after the rollover of
    the seconds field, 2^32 - 2208988800 s after the Unix epoch. *)
Lemma timestampToLocalTime_before_rollover (s f : Z) :
  is_uint32 s -> is_uint32 f ->
  - ntpEpochOffset <= sec (timestampToLocalTime s f) < 2 ^ 32 - ntpEpochOffset.
Proof.
  intros Hs Hf. rewrite timestampToLocalTime_eq by assumption.
  cbn [sec]. unfold is_uint32 in Hs. lia.
Qed.

(** * Properties of the specification *)

(** C3: for every settings byte [s], reading back with [binary.Read] the
    48 bytes that [binary.Write] produces for [&packet{Settings: s}] gives a
    packet whose settings byte is [s] and whose other fields are all zero. *)
Theorem C3_decode_encode_request (s : byte) (e : error) :
  d_packet (encode (request s)) = Some (request s, [])
  /\ binary_Read (mkIncoming (encode (request s)) e) zero_packet
     = (request s, None)
  /\ request s = mkPacket s x00 0 0 0 0 0 0 0 0 0 0 0 0 0.
Proof. repeat split. Qed.

(** C7: a request with settings byte [s] is encoded as exactly 48 bytes,
    the settings byte first and 47 zero bytes after it; every packet is
    encoded as 48 bytes, its one-byte fields at offsets 0 to 3 and each
    [uint32] field at its offset with the most significant byte first.
    Encoding is a function, defined on every packet. *)
Theorem C7_encode_layout (s : byte) (p : packet) (Hp : wf_packet p) :
  encode (request s) = s :: repeat x00 47
  /\ length (encode (request s)) = 48%nat
  /\ length (encode p) = 48%nat
  /\ slice 0 4 (encode p)
     = [Settings p; Stratum p; byte_of_Z (Poll p); byte_of_Z (Precision p)]
  /\ Forall (fun ov => be_value (slice (fst ov) 4 (encode p)) = snd ov)
            (uint32_fields p).
Proof.
  repeat split.
  destruct Hp as (_ & _ & H1 & H2 & H3 & H4 & H5 & H6 & H7 & H8 & H9 & H10 & H11).
  unfold uint32_fields.
  repeat (apply Forall_cons; [apply be_value_PutUint32; assumption|]).
  apply Forall_nil.
Qed.

Lemma C7_encode_layout_witness :
  wf_packet reply_2024
  /\ encode (request x1b) = x1b :: repeat x00 47
  /\ be_value (slice 40 4 (encode reply_2024)) = 3913056000.
Proof.
  assert (Hwf : wf_packet reply_2024)
    by (unfold wf_packet, is_int8, is_uint32; cbn; lia).
  split; [exact Hwf|].
  destruct (C7_encode_layout x1b reply_2024 Hwf) as (E & _ & _ & _ & F).
  split; [exact E|].
  unfold uint32_fields in F.
  do 9 (apply Forall_inv_tail in F).
  apply Forall_inv in F. exact F.
Defined.

(** C4 as stated fails: the program has no error of its own for a reply
    that is too short. Two bytes followed by the deadline passing fail with
    the timeout error, the very error of a reply that never comes, and the
    two runs log the same message with the same error. *)
Lemma C4_counterexample :
  (length (arrived (reply world_short)) < packet_size)%nat
  /\ binary_Read (reply world_short) zero_packet
     = (zero_packet, Some ErrDeadlineExceeded)
  /\ binary_Read (reply world_silent) zero_packet
     = (zero_packet, Some ErrDeadlineExceeded)
  /\ logged (trace (fst (run world_short)))
     = [("failed to read server response: %v"%string, ErrDeadlineExceeded)]
  /\ logged (trace (fst (run world_short)))
     = logged (trace (fst (run world_silent))).
Proof.
  split; [unfold packet_size; cbn; lia|].
  repeat split; vm_compute; reflexivity.
Qed.

(** C4, amended: when fewer than 48 bytes arrive in all before a read
    fails, [binary.Read] fails with the error of that read, which is
    [io.ErrUnexpectedEOF] when the input ended after some bytes and
    otherwise the connection's own error, the timeout error when the
    deadline passed; there is no error kind of its own for a short reply.
    The struct is left as it was, and [main] stops with "failed to read
    server response" before using any field. Every buffer of 48 bytes
    decodes, whatever the values of its fields. *)
Theorem C4_short_buffer_fails (w : world)
  (Hshort : (length (arrived (reply w)) < packet_size)%nat) :
  let e := match arrived (reply w), read_err (reply w) with
           | _ :: _, EOF => ErrUnexpectedEOF
           | _, e => e
           end in
  (forall data : packet, binary_Read (reply w) data = (data, Some e))
  /\ (read_err (reply w) = ErrDeadlineExceeded -> e = ErrDeadlineExceeded)
  /\ (dial_err w = None -> setdeadline_err w = None -> write_err w = None ->
      snd (run w) = Exited 1
      /\ logged (trace (fst (run w)))
         = [("failed to read server response: %v"%string, e)]
      /\ printed_times (trace (fst (run w))) = [clock w 1]
      /\ printed_durations (trace (fst (run w))) = [])
  /\ (forall (buf : list byte) (err : error),
        length buf = packet_size ->
        exists p, forall data : packet,
          binary_Read (mkIncoming buf err) data = (p, None)).
Proof.
  intros e.
  assert (E : forall data, binary_Read (reply w) data = (data, Some e))
    by (intros data; unfold binary_Read;
        rewrite ReadFull_short by assumption; reflexivity).
  split; [exact E|]. split; [|split].
  - intros Hd. subst e. rewrite Hd.
    destruct (arrived (reply w)); reflexivity.
  - intros H1 H2 H3. rewrite (run_read_fails w e H1 H2 H3 (E zero_packet)).
    repeat split.
  - intros buf err Hlen. unfold binary_Read.
    rewrite ReadFull_enough by (cbn [arrived]; lia).
    cbn [arrived]. rewrite <- Hlen, firstn_all.
    destruct (d_packet_total buf Hlen) as [p ->]. exists p. reflexivity.
Qed.

Lemma C4_short_buffer_fails_witness :
  binary_Read (mkIncoming [x1c; x02] EOF) zero_packet
  = (zero_packet, Some ErrUnexpectedEOF)
  /\ snd (run world_silent) = Exited 1.
Proof.
  split.
  - exact (proj1 (C4_short_buffer_fails
                    (mkWorld None (fun _ => mkTime 0 0) None None None
                       (mkIncoming [x1c; x02] EOF))
                    ltac:(unfold packet_size; cbn; lia)) zero_packet).
  - assert (Hs : (length (arrived (reply world_silent)) < packet_size)%nat)
      by (unfold packet_size; cbn; lia).
    exact (proj1 (proj1 (proj2 (proj2 (C4_short_buffer_fails world_silent Hs)))
                    eq_refl eq_refl eq_refl)).
Defined.

(** C6: the fraction [0xFFFFFFFF] gives 999999999 nanoseconds, the
    fraction 0 gives 0, and every [uint32] fraction gives a value in
    [0, 1e9). *)
Theorem C6_nanos_bounds (f : Z) (Hf : is_uint32 f) :
  printTime_nanos 4294967295 = 999999999
  /\ printTime_nanos 0 = 0
  /\ 0 <= printTime_nanos f < 1000000000.
Proof.
  split; [reflexivity|]. split; [reflexivity|].
  apply printTime_nanos_range. assumption.
Qed.

Lemma C6_nanos_bounds_witness :
  is_uint32 2147483648 /\ 0 <= printTime_nanos 2147483648 < 1000000000.
Proof.
  assert (H : is_uint32 2147483648) by (unfold is_uint32; lia).
  split; [exact H|].
  exact (proj2 (proj2 (C6_nanos_bounds 2147483648 H))).
Defined.

(** C2: for every NTP timestamp ([s], [f]) of two [uint32], the time
    [printTime] builds has seconds [s - 2208988800] and nanoseconds
    [floor (f * 1e9 / 2^32)]; (3913056000, 0) gives 1704067200 s and 0 ns,
    (3913056000, 0x80000000) gives 1704067200 s and 500000000 ns, and a run
    that receives them as receive and transmit timestamps prints them. *)
Theorem C2_timestamp_conversion (s f : Z) (Hs : is_uint32 s) (Hf : is_uint32 f) :
  timestampToLocalTime s f
  = mkTime (s - 2208988800) (f * 1000000000 / 2 ^ 32)
  /\ timestampToLocalTime 3913056000 0 = mkTime 1704067200 0
  /\ timestampToLocalTime 3913056000 2147483648 = mkTime 1704067200 500000000
  /\ skipn 3 (printed_times (trace (fst (run world_2024))))
     = [mkTime 1704067200 0; mkTime 1704067200 500000000].
Proof.
  split; [apply timestampToLocalTime_eq; assumption|].
  repeat split; vm_compute; reflexivity.
Qed.

Lemma C2_timestamp_conversion_witness :
  is_uint32 3913056000 /\ is_uint32 4294967295
  /\ timestampToLocalTime 3913056000 4294967295 = mkTime 1704067200 999999999.
Proof.
  assert (H1 : is_uint32 3913056000) by (unfold is_uint32; lia).
  assert (H2 : is_uint32 4294967295) by (unfold is_uint32; lia).
  split; [exact H1|]. split; [exact H2|].
  exact (proj1 (C2_timestamp_conversion 3913056000 4294967295 H1 H2)).
Defined.

(** C10: for every [uint32] [s], [float64(s)] is exactly [s], the float64
    difference [float64(s) - 2208988800] is exactly the integer
    [s - 2208988800] and [int64] reads it back unchanged, negative values
    included; for every [uint32] [f] the [int64] product [f * 1e9] stays
    below 2^63, so it does not wrap. *)
Theorem C10_float_path_exact (s f : Z) (Hs : is_uint32 s) (Hf : is_uint32 f) :
  float64_integer (float64_of_Z s) = Some s
  /\ float64_integer
       (float64_sub (float64_of_Z s) (float64_of_Z ntpEpochOffset))
     = Some (s - 2208988800)
  /\ printTime_secs s = s - 2208988800
  /\ printTime_secs 0 = -2208988800
  /\ 0 <= int64 f * 1000000000 <= 4294967295 * 1000000000
  /\ 4294967295 * 1000000000 < 2 ^ 63
  /\ int64 (int64 f * 1000000000) = f * 1000000000.
Proof.
  pose proof (nanos_product_fits f Hf) as Hp.
  assert (Ef : int64 f = f).
  { apply int64_small. unfold is_uint32 in Hf.
    change (2 ^ 32) with 4294967296 in Hf.
    change (2 ^ 63) with 9223372036854775808. lia. }
  split; [apply float64_of_uint32_exact; assumption|].
  split; [apply secs_exact; assumption|].
  split; [apply secs_exact; assumption|].
  split; [reflexivity|].
  rewrite Ef. split; [lia|]. split; [reflexivity|].
  apply int64_small. change (2 ^ 63) with 9223372036854775808. lia.
Qed.

Lemma C10_float_path_exact_witness :
  is_uint32 1 /\ is_uint32 4294967295
  /\ printTime_secs 1 = -2208988799
  /\ int64 (int64 4294967295 * 1000000000) = 4294967295000000000.
Proof.
  assert (H1 : is_uint32 1) by (unfold is_uint32; lia).
  assert (H2 : is_uint32 4294967295) by (unfold is_uint32; lia).
  split; [exact H1|]. split; [exact H2|].
  pose proof (C10_float_path_exact 1 4294967295 H1 H2)
    as (_ & _ & A & _ & _ & _ & B).
  split; [exact A | exact B].
Defined.

(** C9 as stated fails after the 2036 rollover of the seconds field:
    (3000000000 s, 0 ns) satisfies the claim's bounds and comes back as
    (-1294967296 s, 0 ns). *)
Lemma C9_counterexample :
  0 <= 0 < 1000000000
  /\ - 2208988800 <= 3000000000
  /\ roundtrip 3000000000 0 = mkTime (-1294967296) 0
  /\ ~ within_1ns (roundtrip 3000000000 0) 3000000000 0.
Proof.
  split; [lia|]. split; [lia|].
  assert (E : roundtrip 3000000000 0 = mkTime (-1294967296) 0)
    by (vm_compute; reflexivity).
  split; [exact E|].
  rewrite E. unfold within_1ns, instant. cbn [sec nsec]. lia.
Qed.

(** C9, amended: for nanoseconds in [0, 1e9) and epoch seconds from
    -2208988800 up to, not including, 2^32 - 2208988800 (the last second
    the [uint32] seconds field holds), converting to the NTP fixed point and
    back gives the same second and the same nanosecond or the one before:
    the pair is reproduced to within 1 nanosecond. *)
Theorem C9_roundtrip_within_era (es ns : Z)
  (Hns : 0 <= ns < 1000000000)
  (Hes : - 2208988800 <= es < 2 ^ 32 - 2208988800) :
  sec (roundtrip es ns) = es
  /\ ns - 1 <= nsec (roundtrip es ns) <= ns
  /\ within_1ns (roundtrip es ns) es ns.
Proof.
  change (2 ^ 32) with 4294967296 in Hes.
  assert (Hs : is_uint32 (es + ntpEpochOffset))
    by (unfold is_uint32, ntpEpochOffset; change (2 ^ 32) with 4294967296; lia).
  set (x := ns * 2 ^ 32 / 1000000000).
  assert (Hx : x * 1000000000 <= ns * 2 ^ 32 < x * 1000000000 + 1000000000).
  { subst x. pose proof (Z.div_mod (ns * 2 ^ 32) 1000000000 ltac:(lia)).
    pose proof (Z.mod_pos_bound (ns * 2 ^ 32) 1000000000 ltac:(lia)). lia. }
  change (2 ^ 32) with 4294967296 in Hx.
  assert (Hf : is_uint32 x)
    by (unfold is_uint32; change (2 ^ 32) with 4294967296; lia).
  assert (E : roundtrip es ns
              = mkTime es (x * 1000000000 / 2 ^ 32)).
  { unfold roundtrip, localTimeToTimestamp. fold x. unfold uint32.
    rewrite !Z.mod_small by assumption.
    rewrite timestampToLocalTime_eq by assumption.
    f_equal. lia. }
  rewrite E. cbn [sec nsec]. unfold within_1ns, instant. cbn [sec nsec].
  change (2 ^ 32) with 4294967296.
  assert (B : ns - 1 <= x * 1000000000 / 4294967296 <= ns).
  { split.
    - apply Z.div_le_lower_bound; lia.
    - assert (x * 1000000000 / 4294967296 < ns + 1); [|lia].
      apply Z.div_lt_upper_bound; lia. }
  split; [reflexivity|]. split; [exact B|]. lia.
Qed.

Lemma C9_roundtrip_within_era_witness :
  0 <= 123456789 < 1000000000
  /\ - 2208988800 <= 1704067200 < 2 ^ 32 - 2208988800
  /\ within_1ns (roundtrip 1704067200 123456789) 1704067200 123456789.
Proof.
  assert (H1 : 0 <= 123456789 < 1000000000) by lia.
  assert (H2 : - 2208988800 <= 1704067200 < 2 ^ 32 - 2208988800) by lia.
  split; [exact H1|]. split; [exact H2|].
  exact (proj2 (proj2 (C9_roundtrip_within_era 1704067200 123456789 H1 H2))).
Defined.

(** ** Outcomes of a run *)

Lemma Sub_bounds (t u : Time) : minDuration <= Sub t u <= maxDuration.
Proof.
  unfold Sub. cbv zeta.
  set (d := (sec t - sec u) * Second + (nsec t - nsec u)).
  assert (minDuration <= maxDuration) by (vm_compute; discriminate).
  destruct (Z.ltb_spec d minDuration); [lia|].
  destruct (Z.ltb_spec maxDuration d); lia.
Qed.

Lemma Sub_exact (t u : Time) :
  minDuration <= instant t - instant u <= maxDuration ->
  Sub t u = instant t - instant u.
Proof.
  unfold Sub, instant. cbv zeta. intros H.
  set (d := (sec t - sec u) * Second + (nsec t - nsec u)).
  assert (E : d = sec t * 1000000000 + nsec t - (sec u * 1000000000 + nsec u))
    by (subst d; unfold Second; lia).
  destruct (Z.ltb_spec d minDuration); [lia|].
  destruct (Z.ltb_spec maxDuration d); lia.
Qed.

(** A run takes one of five courses, decided by the first step that
    fails. *)
Lemma run_cases (w : world) :
  (exists e, dial_err w = Some e)
  \/ (dial_err w = None /\ exists e, setdeadline_err w = Some e)
  \/ (dial_err w = None /\ setdeadline_err w = None
      /\ exists e, write_err w = Some e)
  \/ (dial_err w = None /\ setdeadline_err w = None /\ write_err w = None
      /\ exists e, binary_Read (reply w) zero_packet = (zero_packet, Some e))
  \/ (dial_err w = None /\ setdeadline_err w = None /\ write_err w = None
      /\ exists rsp, binary_Read (reply w) zero_packet = (rsp, None)).
Proof.
  destruct (dial_err w) as [e|]; [left; eauto|].
  destruct (setdeadline_err w) as [e|]; [right; left; eauto|].
  destruct (write_err w) as [e|]; [right; right; left; eauto|].
  right; right; right.
  destruct (binary_Read_cases (reply w) zero_packet) as [[e H]|[rsp [H _]]];
    [left | right]; eauto.
Qed.

(** The course of a whole run, read off the first thing that goes wrong:
    the command line, then connecting, setting the deadline, sending and
    reading, in that order. *)
Lemma process_course (po : parse_outcome) (w : world) :
  process po w
  = match po with
    | ParseHelp => (mkState 0 [], Exited 0)
    | ParseFails => (mkState 0 [], Exited 2)
    | ParseReturns =>
        match dial_err w, setdeadline_err w, write_err w,
              binary_Read (reply w) zero_packet with
        | Some e, _, _, _ =>
            (mkState 0 [ Dial "udp" (host w);
                         Fatal "failed to connect:" e ], Exited 1)
        | None, Some e, _, _ =>
            (mkState 1 [ Dial "udp" (host w);
                         SetDeadline (Add (clock w 0) (5 * Second));
                         Fatal "failed to set deadline: " e ], Exited 1)
        | None, None, Some e, _ =>
            (mkState 3 [ Dial "udp" (host w);
                         SetDeadline (Add (clock w 0) (5 * Second));
                         Println_time (clock w 1);
                         Fatal "failed to send request: %v" e ], Exited 1)
        | None, None, None, (_, Some e) =>
            (mkState 3 [ Dial "udp" (host w);
                         SetDeadline (Add (clock w 0) (5 * Second));
                         Println_time (clock w 1);
                         ConnWrite (encode (request x1b));
                         Fatal "failed to read server response: %v" e ],
             Exited 1)
        | None, None, None, (rsp, None) =>
            (mkState 4
               [ Dial "udp" (host w);
                 SetDeadline (Add (clock w 0) (5 * Second));
                 Println_time (clock w 1);
                 ConnWrite (encode (request x1b));
                 Println_time
                   (timestampToLocalTime (OrigTimeSec rsp) (OrigTimeFrac rsp));
                 Println_time
                   (timestampToLocalTime (RefTimeSec rsp) (RefTimeFrac rsp));
                 Println_time
                   (timestampToLocalTime (RxTimeSec rsp) (RxTimeFrac rsp));
                 Println_time
                   (timestampToLocalTime (TxTimeSec rsp) (TxTimeFrac rsp));
                 Println_duration
                   (Sub (timestampToLocalTime (RxTimeSec rsp) (RxTimeFrac rsp))
                        (clock w 2));
                 Println_duration
                   (Sub (timestampToLocalTime (TxTimeSec rsp) (TxTimeFrac rsp))
                        (clock w 3));
                 Close ], Returned tt)
        end
    end.
Proof.
  destruct po; [|reflexivity|reflexivity].
  unfold process.
  destruct (run_cases w)
    as [[e H1] | [(H1 & e & H2) | [(H1 & H2 & e & H3)
        | [(H1 & H2 & H3 & e & H4) | (H1 & H2 & H3 & rsp & H4)]]]].
  - rewrite (run_dial_fails w e H1), H1. reflexivity.
  - rewrite (run_setdeadline_fails w e H1 H2), H1, H2. reflexivity.
  - rewrite (run_write_fails w e H1 H2 H3), H1, H2, H3. reflexivity.
  - rewrite (run_read_fails w e H1 H2 H3 H4), H1, H2, H3, H4. reflexivity.
  - rewrite (run_ok w rsp H1 H2 H3 H4), H1, H2, H3, H4. reflexivity.
Qed.

(** C1 as stated fails: with T1 = 0 s, T2 = 1 s, T3 = 2 s, T4 = 4 s the
    two durations the program computes are 1 s and -2 s; neither the delay
    of 3 s nor the offset of -0.5 s is among them. *)
Lemma C1_counterexample :
  let t1 := mkTime 0 0 in
  let t2 := mkTime 1 0 in
  let t3 := mkTime 2 0 in
  let t4 := mkTime 4 0 in
  clock world_0_1_2_4 2 = t1 /\ clock world_0_1_2_4 3 = t4
  /\ binary_Read (reply world_0_1_2_4) zero_packet = (reply_1_2, None)
  /\ timestampToLocalTime (RxTimeSec reply_1_2) (RxTimeFrac reply_1_2) = t2
  /\ timestampToLocalTime (TxTimeSec reply_1_2) (TxTimeFrac reply_1_2) = t3
  /\ spec_delay t1 t2 t3 t4 = 3000000000
  /\ spec_offset t1 t2 t3 t4 = -500000000
  /\ printed_durations (trace (fst (run world_0_1_2_4)))
     = [1000000000; -2000000000]
  /\ ~ In (spec_delay t1 t2 t3 t4)
          (printed_durations (trace (fst (run world_0_1_2_4))))
  /\ ~ In (spec_offset t1 t2 t3 t4)
          (printed_durations (trace (fst (run world_0_1_2_4)))).
Proof.
  assert (E : printed_durations (trace (fst (run world_0_1_2_4)))
              = [1000000000; -2000000000]) by (vm_compute; reflexivity).
  cbv zeta. rewrite E.
  repeat split; try (vm_compute; reflexivity);
    vm_compute; intros [H|[H|[]]]; discriminate H.
Qed.

(** C1, amended: after a successful exchange with local times T1, T4 and
    decoded server times T2, T3, the program computes and prints two signed
    durations, T2 - T1 and T3 - T4 in that order, each the exact difference
    in nanoseconds when that fits a [Duration]; it computes neither the
    round-trip delay nor the halved offset. *)
Theorem C1_printed_durations (w : world) (rsp : packet)
  (Hdial : dial_err w = None) (Hdl : setdeadline_err w = None)
  (Hwr : write_err w = None)
  (Hrd : binary_Read (reply w) zero_packet = (rsp, None)) :
  let t1 := clock w 2 in
  let t4 := clock w 3 in
  let t2 := timestampToLocalTime (RxTimeSec rsp) (RxTimeFrac rsp) in
  let t3 := timestampToLocalTime (TxTimeSec rsp) (TxTimeFrac rsp) in
  snd (run w) = Returned tt
  /\ printed_durations (trace (fst (run w))) = [Sub t2 t1; Sub t3 t4]
  /\ minDuration <= Sub t2 t1 <= maxDuration
  /\ minDuration <= Sub t3 t4 <= maxDuration
  /\ (minDuration <= instant t2 - instant t1 <= maxDuration ->
      Sub t2 t1 = instant t2 - instant t1)
  /\ (minDuration <= instant t3 - instant t4 <= maxDuration ->
      Sub t3 t4 = instant t3 - instant t4).
Proof.
  intros t1 t4 t2 t3. rewrite (run_ok w rsp Hdial Hdl Hwr Hrd).
  split; [reflexivity|]. split; [reflexivity|].
  split; [apply Sub_bounds|]. split; [apply Sub_bounds|].
  split; apply Sub_exact.
Qed.

Lemma C1_printed_durations_witness :
  printed_durations (trace (fst (run world_0_1_2_4)))
  = [Sub (mkTime 1 0) (mkTime 0 0); Sub (mkTime 2 0) (mkTime 4 0)].
Proof.
  assert (Hrd : binary_Read (reply world_0_1_2_4) zero_packet
                = (reply_1_2, None))
    by (vm_compute; reflexivity).
  exact (proj1 (proj2 (C1_printed_durations world_0_1_2_4 reply_1_2
                         eq_refl eq_refl eq_refl Hrd))).
Defined.

(** C5 as stated fails: a run whose deadline cannot be set logs a fatal
    message, and a run that completes returns nothing to its caller and
    prints neither delay nor offset. *)
Lemma C5_counterexample :
  logged (trace (fst (run world_no_deadline)))
  = [("failed to set deadline: "%string, ErrNet 1)]
  /\ snd (run world_no_deadline) = Exited 1
  /\ snd (run world_0_1_2_4) = Returned tt
  /\ printed_durations (trace (fst (run world_0_1_2_4)))
     = [1000000000; -2000000000].
Proof. repeat split; vm_compute; reflexivity. Qed.

(** C5, amended: every run of the program takes exactly one course,
    decided by the first thing that goes wrong. If the command line does not
    parse, [flag.Parse] ends the process with status 0 (help) or 2 before
    anything is dialled, printed or logged. Otherwise the first step to fail
    among connect, set deadline, send and read, tried in that order, ends
    the run with exit status 1 and one fatal message, the message of that
    step with that step's error; later steps are not reached, and no decoded
    timestamp and no duration is printed. If no step fails the run
    completes, having logged nothing and printed the current time, the four
    timestamps decoded from the 48 reply bytes (origin, reference, receive,
    transmit) and the two durations T2 - T1 and T3 - T4. [main] returns no
    data to its caller. *)
Theorem C5_completes_or_exits (po : parse_outcome) (w : world) :
  process po w
  = match po with
    | ParseHelp => (mkState 0 [], Exited 0)
    | ParseFails => (mkState 0 [], Exited 2)
    | ParseReturns =>
        match dial_err w, setdeadline_err w, write_err w,
              binary_Read (reply w) zero_packet with
        | Some e, _, _, _ =>
            (mkState 0 [ Dial "udp" (host w);
                         Fatal "failed to connect:" e ], Exited 1)
        | None, Some e, _, _ =>
            (mkState 1 [ Dial "udp" (host w);
                         SetDeadline (Add (clock w 0) (5 * Second));
                         Fatal "failed to set deadline: " e ], Exited 1)
        | None, None, Some e, _ =>
            (mkState 3 [ Dial "udp" (host w);
                         SetDeadline (Add (clock w 0) (5 * Second));
                         Println_time (clock w 1);
                         Fatal "failed to send request: %v" e ], Exited 1)
        | None, None, None, (_, Some e) =>
            (mkState 3 [ Dial "udp" (host w);
                         SetDeadline (Add (clock w 0) (5 * Second));
                         Println_time (clock w 1);
                         ConnWrite (encode (request x1b));
                         Fatal "failed to read server response: %v" e ],
             Exited 1)
        | None, None, None, (rsp, None) =>
            (mkState 4
               [ Dial "udp" (host w);
                 SetDeadline (Add (clock w 0) (5 * Second));
                 Println_time (clock w 1);
                 ConnWrite (encode (request x1b));
                 Println_time
                   (timestampToLocalTime (OrigTimeSec rsp) (OrigTimeFrac rsp));
                 Println_time
                   (timestampToLocalTime (RefTimeSec rsp) (RefTimeFrac rsp));
                 Println_time
                   (timestampToLocalTime (RxTimeSec rsp) (RxTimeFrac rsp));
                 Println_time
                   (timestampToLocalTime (TxTimeSec rsp) (TxTimeFrac rsp));
                 Println_duration
                   (Sub (timestampToLocalTime (RxTimeSec rsp) (RxTimeFrac rsp))
                        (clock w 2));
                 Println_duration
                   (Sub (timestampToLocalTime (TxTimeSec rsp) (TxTimeFrac rsp))
                        (clock w 3));
                 Close ], Returned tt)
        end
    end
  /\ ((exists rsp,
         po = ParseReturns
         /\ d_packet (firstn packet_size (arrived (reply w))) = Some (rsp, [])
         /\ snd (process po w) = Returned tt
         /\ logged (trace (fst (process po w))) = []
         /\ printed_times (trace (fst (process po w)))
            = [ clock w 1;
                timestampToLocalTime (OrigTimeSec rsp) (OrigTimeFrac rsp);
                timestampToLocalTime (RefTimeSec rsp) (RefTimeFrac rsp);
                timestampToLocalTime (RxTimeSec rsp) (RxTimeFrac rsp);
                timestampToLocalTime (TxTimeSec rsp) (TxTimeFrac rsp) ]
         /\ printed_durations (trace (fst (process po w)))
            = [ Sub (timestampToLocalTime (RxTimeSec rsp) (RxTimeFrac rsp))
                    (clock w 2);
                Sub (timestampToLocalTime (TxTimeSec rsp) (TxTimeFrac rsp))
                    (clock w 3) ])
      \/ (exists msg e,
            po = ParseReturns
            /\ snd (process po w) = Exited 1
            /\ logged (trace (fst (process po w))) = [(msg, e)]
            /\ (printed_times (trace (fst (process po w))) = []
                \/ printed_times (trace (fst (process po w))) = [clock w 1])
            /\ printed_durations (trace (fst (process po w))) = [])
      \/ (po <> ParseReturns
          /\ (snd (process po w) = Exited 0 \/ snd (process po w) = Exited 2)
          /\ trace (fst (process po w)) = [])).
Proof.
  split; [apply process_course|].
  destruct po; cycle 1.
  - right. right. repeat split; [discriminate | left; reflexivity].
  - right. right. repeat split; [discriminate | right; reflexivity].
  - unfold process.
    destruct (run_cases w)
      as [[e H1] | [(H1 & e & H2) | [(H1 & H2 & e & H3)
          | [(H1 & H2 & H3 & e & H4) | (H1 & H2 & H3 & rsp & H4)]]]].
    + right. left. rewrite (run_dial_fails w e H1).
      do 2 eexists. repeat split. left. reflexivity.
    + right. left. rewrite (run_setdeadline_fails w e H1 H2).
      do 2 eexists. repeat split. left. reflexivity.
    + right. left. rewrite (run_write_fails w e H1 H2 H3).
      do 2 eexists. repeat split. right. reflexivity.
    + right. left. rewrite (run_read_fails w e H1 H2 H3 H4).
      do 2 eexists. repeat split. right. reflexivity.
    + left. exists rsp. rewrite (run_ok w rsp H1 H2 H3 H4).
      split; [reflexivity|]. split; [|repeat split].
      destruct (binary_Read_cases (reply w) zero_packet)
        as [[e H]|[rsp' [H Hd]]]; congruence.
Qed.

(** C8 as stated fails: the deadline is not taken from the caller. A run
    started at time 0 puts the deadline at 5 s, whatever the caller wants;
    a timeout of 1 s would put it at 1 s. *)
Lemma C8_counterexample :
  clock world_silent 0 = mkTime 0 0
  /\ deadlines (trace (fst (run world_silent))) = [mkTime 5 0]
  /\ deadlines (trace (fst (run world_silent)))
     <> [Add (clock world_silent 0) (1 * Second)].
Proof.
  split; [reflexivity|]. split; [reflexivity|].
  vm_compute. discriminate.
Qed.

(** C8, amended: once connected, [main] puts one deadline on the
    connection, the current time plus a fixed 5 seconds, whatever the [-e]
    flag and the network do; if setting it fails the run ends there with the
    fatal message "failed to set deadline: " and that error, nothing having
    been sent; if fewer than 48 reply bytes arrive before the deadline
    passes, the run ends with "failed to read server response" and the
    timeout error. *)
Theorem C8_fixed_deadline (w : world) (Hdial : dial_err w = None) :
  deadlines (trace (fst (run w))) = [Add (clock w 0) (5 * Second)]
  /\ (forall e, setdeadline_err w = Some e ->
        snd (run w) = Exited 1
        /\ logged (trace (fst (run w)))
           = [("failed to set deadline: "%string, e)]
        /\ sent (trace (fst (run w))) = [])
  /\ (setdeadline_err w = None -> write_err w = None ->
      (length (arrived (reply w)) < packet_size)%nat ->
      read_err (reply w) = ErrDeadlineExceeded ->
      snd (run w) = Exited 1
      /\ logged (trace (fst (run w)))
         = [("failed to read server response: %v"%string,
             ErrDeadlineExceeded)]).
Proof.
  split; [|split].
  - destruct (run_cases w)
      as [[e H1] | [(H1 & e & H2) | [(H1 & H2 & e & H3)
          | [(H1 & H2 & H3 & e & H4) | (H1 & H2 & H3 & rsp & H4)]]]].
    + congruence.
    + rewrite (run_setdeadline_fails w e H1 H2). reflexivity.
    + rewrite (run_write_fails w e H1 H2 H3). reflexivity.
    + rewrite (run_read_fails w e H1 H2 H3 H4). reflexivity.
    + rewrite (run_ok w rsp H1 H2 H3 H4). reflexivity.
  - intros e H2. rewrite (run_setdeadline_fails w e Hdial H2).
    repeat split.
  - intros H2 H3 Hlen Herr.
    assert (H4 : binary_Read (reply w) zero_packet
                 = (zero_packet, Some ErrDeadlineExceeded)).
    { unfold binary_Read. rewrite ReadFull_short by assumption.
      rewrite Herr. destruct (arrived (reply w)); reflexivity. }
    rewrite (run_read_fails w _ Hdial H2 H3 H4). repeat split.
Qed.

Lemma C8_fixed_deadline_witness :
  deadlines (trace (fst (run world_2024))) = [mkTime 1704067205 0]
  /\ logged (trace (fst (run world_no_deadline)))
     = [("failed to set deadline: "%string, ErrNet 1)]
  /\ logged (trace (fst (run world_silent)))
     = [("failed to read server response: %v"%string, ErrDeadlineExceeded)].
Proof.
  split; [exact (proj1 (C8_fixed_deadline world_2024 eq_refl))|].
  split.
  - exact (proj1 (proj2 (proj1 (proj2 (C8_fixed_deadline world_no_deadline
                                         eq_refl))
                           (ErrNet 1) eq_refl))).
  - assert (Hlen : (length (arrived (reply world_silent)) < packet_size)%nat)
      by (unfold packet_size; cbn; lia).
    exact (proj2 (proj2 (proj2 (C8_fixed_deadline world_silent eq_refl))
                    eq_refl eq_refl Hlen eq_refl)).
Defined.

(** * Further properties of the program *)

(** ** Decoding arbitrary bytes *)

Lemma byte_of_Z_eq (x : Z) (b : byte) :
  x mod 2 ^ 8 = Z_of_byte b -> byte_of_Z x = b.
Proof.
  intros H. rewrite <- byte_of_Z_mod, H. apply byte_of_Z_of_byte.
Qed.

Lemma PutUint32_be_value (b0 b1 b2 b3 : byte) :
  PutUint32 (be_value [b0; b1; b2; b3]) = [b0; b1; b2; b3].
Proof.
  pose proof (Z_of_byte_range b0). pose proof (Z_of_byte_range b1).
  pose proof (Z_of_byte_range b2). pose proof (Z_of_byte_range b3).
  unfold PutUint32, be_value. cbv [fold_left].
  rewrite !Z.shiftr_div_pow2 by lia.
  change (2 ^ 24) with 16777216. change (2 ^ 16) with 65536.
  change (2 ^ 8) with 256.
  f_equal; [|f_equal; [|f_equal; [|f_equal]]];
    apply byte_of_Z_eq; change (2 ^ 8) with 256;
    Z.to_euclidean_division_equations; lia.
Qed.

Lemma Uint32_be_value (b0 b1 b2 b3 : byte) :
  Uint32 b0 b1 b2 b3 = be_value [b0; b1; b2; b3].
Proof.
  pose proof (Z_of_byte_range b0). pose proof (Z_of_byte_range b1).
  pose proof (Z_of_byte_range b2). pose proof (Z_of_byte_range b3).
  assert (Hv : is_uint32 (be_value [b0; b1; b2; b3])).
  { unfold is_uint32, be_value. cbv [fold_left].
    change (2 ^ 32) with 4294967296. lia. }
  pose proof (Uint32_PutUint32 _ Hv) as E.
  pose proof (PutUint32_be_value b0 b1 b2 b3) as P.
  unfold PutUint32 in P. injection P as P0 P1 P2 P3.
  rewrite P0, P1, P2, P3 in E. exact E.
Qed.

Lemma Uint32_range (b0 b1 b2 b3 : byte) : is_uint32 (Uint32 b0 b1 b2 b3).
Proof.
  pose proof (Z_of_byte_range b0). pose proof (Z_of_byte_range b1).
  pose proof (Z_of_byte_range b2). pose proof (Z_of_byte_range b3).
  rewrite Uint32_be_value. unfold is_uint32, be_value. cbv [fold_left].
  change (2 ^ 32) with 4294967296. lia.
Qed.

Lemma PutUint32_Uint32 (b0 b1 b2 b3 : byte) :
  PutUint32 (Uint32 b0 b1 b2 b3) = [b0; b1; b2; b3].
Proof. rewrite Uint32_be_value. apply PutUint32_be_value. Qed.

Lemma int8_of_byte_range (b : byte) : is_int8 (int8 (Z_of_byte b)).
Proof.
  pose proof (Z_of_byte_range b). unfold is_int8, int8.
  change (2 ^ 7) with 128. change (2 ^ 8) with 256.
  Z.to_euclidean_division_equations; lia.
Qed.

Lemma byte_of_int8_of_byte (b : byte) : byte_of_Z (int8 (Z_of_byte b)) = b.
Proof.
  pose proof (Z_of_byte_range b). apply byte_of_Z_eq. unfold int8.
  change (2 ^ 7) with 128. change (2 ^ 8) with 256.
  Z.to_euclidean_division_equations; lia.
Qed.

(** What the decoder makes of 48 bytes: a packet with every field within
    its type, from which the encoder gives the same bytes back. *)
Lemma d_packet_inverse (buf : list byte) (p : packet) :
  length buf = packet_size -> d_packet buf = Some (p, []) ->
  wf_packet p /\ encode p = buf.
Proof.
  unfold packet_size. intros Hlen H.
  do 48 (destruct buf as [|? buf]; [discriminate Hlen|]).
  destruct buf; [|discriminate Hlen].
  cbv [d_packet dbind d_uint8 d_int8 d_uint32 dret] in H.
  injection H as <-. split.
  - unfold wf_packet.
    cbn [Poll Precision RootDelay RootDispersion ReferenceID RefTimeSec
         RefTimeFrac OrigTimeSec OrigTimeFrac RxTimeSec RxTimeFrac
         TxTimeSec TxTimeFrac].
    repeat split; try apply int8_of_byte_range; apply Uint32_range.
  - cbv [encode e_uint8 e_int8 e_uint32 Settings Stratum Poll Precision
         RootDelay RootDispersion ReferenceID RefTimeSec RefTimeFrac
         OrigTimeSec OrigTimeFrac RxTimeSec RxTimeFrac TxTimeSec
         TxTimeFrac].
    rewrite !PutUint32_Uint32, !byte_of_int8_of_byte. reflexivity.
Qed.

(** ** More on the codec *)

(** X1: [binary.Read] undoes [binary.Write] on every packet whose fields
    are within their types, whatever the struct held before and whatever
    error the connection would have reported afterwards. *)
Theorem X1_read_write_roundtrip (p data : packet) (e : error)
  (Hp : wf_packet p) :
  binary_Read (mkIncoming (encode p) e) data = (p, None).
Proof. apply binary_Read_encode. assumption. Qed.

Lemma X1_read_write_roundtrip_witness :
  wf_packet reply_2024
  /\ binary_Read (mkIncoming (encode reply_2024) EOF) zero_packet
     = (reply_2024, None).
Proof.
  assert (Hwf : wf_packet reply_2024)
    by (unfold wf_packet, is_int8, is_uint32; cbn; lia).
  split; [exact Hwf|].
  exact (X1_read_write_roundtrip reply_2024 zero_packet EOF Hwf).
Defined.

(** X2: whatever 48 bytes arrive, [binary.Read] succeeds, the packet it
    fills has every field within its Go type, and encoding that packet gives
    the same 48 bytes back: decoding loses nothing. *)
Theorem X2_decode_then_encode (buf : list byte) (e : error) (data : packet)
  (Hlen : length buf = packet_size) :
  exists p,
    binary_Read (mkIncoming buf e) data = (p, None)
    /\ wf_packet p
    /\ encode p = buf.
Proof.
  destruct (binary_Read_cases (mkIncoming buf e) data)
    as [[err H]|[p [H Hd]]].
  - exfalso. unfold binary_Read in H.
    rewrite ReadFull_enough in H by (cbn [arrived]; lia).
    cbn [arrived] in H. rewrite <- Hlen, firstn_all in H.
    destruct (d_packet_total buf Hlen) as [q Hq]. rewrite Hq in H.
    discriminate H.
  - exists p. split; [exact H|].
    cbn [arrived] in Hd. rewrite <- Hlen, firstn_all in Hd.
    apply d_packet_inverse; assumption.
Qed.

Lemma X2_decode_then_encode_witness :
  exists p,
    binary_Read (mkIncoming (repeat xff 48) EOF) zero_packet = (p, None)
    /\ wf_packet p
    /\ encode p = repeat xff 48.
Proof. exact (X2_decode_then_encode (repeat xff 48) EOF zero_packet eq_refl). Defined.

(** X3: [binary.Read] takes the first 48 bytes and nothing else: bytes
    that arrive after them, and the error a later read would have met, do
    not change its result. *)
Theorem X3_trailing_bytes_ignored (buf extra : list byte) (e e' : error)
  (data : packet) (Hlen : length buf = packet_size) :
  binary_Read (mkIncoming (buf ++ extra) e) data
  = binary_Read (mkIncoming buf e') data.
Proof.
  unfold binary_Read.
  rewrite !ReadFull_enough
    by (cbn [arrived]; rewrite ?length_app; lia).
  cbn [arrived]. rewrite <- Hlen.
  rewrite firstn_app, Nat.sub_diag, firstn_all. cbn [firstn].
  rewrite app_nil_r. reflexivity.
Qed.

Lemma X3_trailing_bytes_ignored_witness :
  binary_Read (mkIncoming (encode reply_2024 ++ [x01; x02]) EOF) zero_packet
  = binary_Read (mkIncoming (encode reply_2024) ErrDeadlineExceeded)
      zero_packet.
Proof.
  exact (X3_trailing_bytes_ignored (encode reply_2024) [x01; x02]
           EOF ErrDeadlineExceeded zero_packet eq_refl).
Defined.

(** ** More on runs *)

(** X4: what a run logs is decided by the first thing that goes wrong.
    When [flag.Parse] ends the process nothing is logged (nor dialled, nor
    printed) and the status is 0 or 2. When it returns, the steps fail in a
    fixed order of precedence, connect, set deadline, send, read: the first
    that fails gives the one fatal message, and later failures are not
    reached. The run exits with status 1 exactly when something was logged,
    and returns exactly when [flag.Parse] returned and nothing was
    logged. *)
Theorem X4_first_failure_decides (po : parse_outcome) (w : world) :
  logged (trace (fst (process po w)))
  = match po with
    | ParseReturns =>
        match dial_err w, setdeadline_err w, write_err w,
              snd (binary_Read (reply w) zero_packet) with
        | Some e, _, _, _ => [("failed to connect:"%string, e)]
        | None, Some e, _, _ => [("failed to set deadline: "%string, e)]
        | None, None, Some e, _ =>
            [("failed to send request: %v"%string, e)]
        | None, None, None, Some e =>
            [("failed to read server response: %v"%string, e)]
        | None, None, None, None => []
        end
    | ParseHelp | ParseFails => []
    end
  /\ (snd (process po w) = Exited 1
      <-> logged (trace (fst (process po w))) <> [])
  /\ (snd (process po w) = Returned tt
      <-> po = ParseReturns /\ logged (trace (fst (process po w))) = [])
  /\ (po = ParseHelp ->
      process po w = (mkState 0 [], Exited 0))
  /\ (po = ParseFails ->
      process po w = (mkState 0 [], Exited 2)).
Proof.
  rewrite (process_course po w).
  assert (Hnil : forall l : list (string * error), l <> l -> False)
    by (intros l H; apply H; reflexivity).
  destruct po;
    [ destruct (dial_err w) as [e1|];
      [|destruct (setdeadline_err w) as [e2|];
        [|destruct (write_err w) as [e3|];
          [|destruct (binary_Read (reply w) zero_packet) as [rsp [e4|]]]]]
    | | ];
    cbn [fst snd trace logged flat_map app];
    repeat split; intros;
    try discriminate; try reflexivity;
    try (exfalso; eapply Hnil; eassumption);
    try match goal with
        | H : _ /\ _ |- _ => destruct H; discriminate
        end.
Qed.

Lemma X4_first_failure_decides_witness :
  logged (trace (fst (process ParseReturns world_no_deadline)))
  = [("failed to set deadline: "%string, ErrNet 1)]
  /\ snd (process ParseReturns world_no_deadline) = Exited 1
  /\ process ParseFails world_2024 = (mkState 0 [], Exited 2).
Proof.
  pose proof (X4_first_failure_decides ParseReturns world_no_deadline)
    as (E & I & _).
  split; [exact E|]. split.
  - apply (proj2 I). rewrite E. discriminate.
  - exact (proj2 (proj2 (proj2 (proj2
             (X4_first_failure_decides ParseFails world_2024)))) eq_refl).
Defined.

(** X5: a run sends at most one datagram, and it is always the same 48
    bytes, 0x1B followed by 47 zero bytes, whatever the flag, the clock and
    the reply are. It goes out exactly when [flag.Parse] returned, the
    connection was made, the deadline was set and the one [conn.Write]
    reported no error; a write that fails is not tried again. *)
Theorem X5_one_fixed_request (po : parse_outcome) (w : world) :
  sent (trace (fst (process po w)))
  = match po, dial_err w, setdeadline_err w, write_err w with
    | ParseReturns, None, None, None => [x1b :: repeat x00 47]
    | _, _, _, _ => []
    end.
Proof.
  rewrite (process_course po w).
  destruct po; [|reflexivity|reflexivity].
  destruct (dial_err w) as [e1|]; [reflexivity|].
  destruct (setdeadline_err w) as [e2|]; [reflexivity|].
  destruct (write_err w) as [e3|]; [reflexivity|].
  destruct (binary_Read (reply w) zero_packet) as [rsp [e4|]]; reflexivity.
Qed.

(** X6: the deferred [conn.Close] runs only when [main] returns: it is the
    last event of a run that completes, and a run that ends in [log.Fatal]
    never closes the connection, not even when it had been opened. *)
Theorem X6_close_only_on_return (w : world) :
  (snd (run w) = Returned tt ->
   exists tr, trace (fst (run w)) = tr ++ [Close] /\ ~ In Close tr)
  /\ (snd (run w) = Exited 1 -> ~ In Close (trace (fst (run w))))
  /\ (In Close (trace (fst (run w))) <-> snd (run w) = Returned tt).
Proof.
  destruct (run_cases w)
    as [[e H1] | [(H1 & e & H2) | [(H1 & H2 & e & H3)
        | [(H1 & H2 & H3 & e & H4) | (H1 & H2 & H3 & rsp & H4)]]]].
  - rewrite (run_dial_fails w e H1). cbn [fst snd trace].
    repeat split; try discriminate;
      intros; cbn [In] in *; intuition discriminate.
  - rewrite (run_setdeadline_fails w e H1 H2). cbn [fst snd trace].
    repeat split; try discriminate;
      intros; cbn [In] in *; intuition discriminate.
  - rewrite (run_write_fails w e H1 H2 H3). cbn [fst snd trace].
    repeat split; try discriminate;
      intros; cbn [In] in *; intuition discriminate.
  - rewrite (run_read_fails w e H1 H2 H3 H4). cbn [fst snd trace].
    repeat split; try discriminate;
      intros; cbn [In] in *; intuition discriminate.
  - rewrite (run_ok w rsp H1 H2 H3 H4). cbn [fst snd trace].
    split; [|split; [discriminate|split; [reflexivity|]]].
    + intros _. eexists. split.
      * change (?a :: ?b :: ?c :: ?d :: ?e :: ?f :: ?g :: ?h :: ?i :: ?j
                :: [Close])
          with ([a; b; c; d; e; f; g; h; i; j] ++ [Close]).
        reflexivity.
      * cbn [In]. intuition discriminate.
    + intros _. cbn [In]. do 10 right. left. reflexivity.
Qed.

Lemma X6_close_only_on_return_witness :
  ~ In Close (trace (fst (run world_silent)))
  /\ In Close (trace (fst (run world_2024))).
Proof.
  split.
  - exact (proj1 (proj2 (X6_close_only_on_return world_silent)) eq_refl).
  - apply (proj2 (proj2 (X6_close_only_on_return world_2024))).
    vm_compute. reflexivity.
Defined.

(** The timestamp fields of a decoded packet come from bytes 16 to 47. *)
Lemma d_packet_timestamps (buf buf' : list byte) (p p' : packet) :
  length buf = packet_size -> length buf' = packet_size ->
  skipn 16 buf = skipn 16 buf' ->
  d_packet buf = Some (p, []) -> d_packet buf' = Some (p', []) ->
  RefTimeSec p = RefTimeSec p' /\ RefTimeFrac p = RefTimeFrac p'
  /\ OrigTimeSec p = OrigTimeSec p' /\ OrigTimeFrac p = OrigTimeFrac p'
  /\ RxTimeSec p = RxTimeSec p' /\ RxTimeFrac p = RxTimeFrac p'
  /\ TxTimeSec p = TxTimeSec p' /\ TxTimeFrac p = TxTimeFrac p'.
Proof.
  unfold packet_size. intros Hlen Hlen' Hs H H'.
  do 48 (destruct buf as [|? buf]; [discriminate Hlen|]).
  destruct buf; [|discriminate Hlen].
  do 48 (destruct buf' as [|? buf']; [discriminate Hlen'|]).
  destruct buf'; [|discriminate Hlen'].
  cbv [d_packet dbind d_uint8 d_int8 d_uint32 dret] in H, H'.
  injection H as <-. injection H' as <-.
  cbn [skipn] in Hs. injection Hs as -> -> -> -> -> -> -> -> -> -> -> ->
    -> -> -> -> -> -> -> -> -> -> -> -> -> -> -> -> -> -> -> ->.
  repeat split.
Qed.

(** X7: nothing in the first 16 bytes of the reply (settings, stratum,
    poll, precision, root delay, root dispersion, reference id) has any
    effect: two 48-byte replies that agree from byte 16 on give the same
    run, event for event, whatever their mode, version or stratum. *)
Theorem X7_header_bytes_ignored
  (fl : option string) (clk : nat -> Time) (de se we : option error)
  (buf buf' : list byte) (e e' : error)
  (Hlen : length buf = packet_size) (Hlen' : length buf' = packet_size)
  (Hsame : skipn 16 buf = skipn 16 buf') :
  run (mkWorld fl clk de se we (mkIncoming buf e))
  = run (mkWorld fl clk de se we (mkIncoming buf' e')).
Proof.
  set (w := mkWorld fl clk de se we (mkIncoming buf e)).
  set (w' := mkWorld fl clk de se we (mkIncoming buf' e')).
  destruct de as [d|].
  { rewrite (run_dial_fails w d eq_refl), (run_dial_fails w' d eq_refl).
    reflexivity. }
  destruct se as [d|].
  { rewrite (run_setdeadline_fails w d eq_refl eq_refl),
      (run_setdeadline_fails w' d eq_refl eq_refl). reflexivity. }
  destruct we as [d|].
  { rewrite (run_write_fails w d eq_refl eq_refl eq_refl),
      (run_write_fails w' d eq_refl eq_refl eq_refl). reflexivity. }
  destruct (d_packet_total buf Hlen) as [p Hp].
  destruct (d_packet_total buf' Hlen') as [p' Hp'].
  assert (R : binary_Read (reply w) zero_packet = (p, None)).
  { unfold binary_Read. rewrite ReadFull_enough by (cbn; lia).
    cbn [reply arrived w]. rewrite <- Hlen, firstn_all, Hp. reflexivity. }
  assert (R' : binary_Read (reply w') zero_packet = (p', None)).
  { unfold binary_Read. rewrite ReadFull_enough by (cbn; lia).
    cbn [reply arrived w']. rewrite <- Hlen', firstn_all, Hp'. reflexivity. }
  rewrite (run_ok w p eq_refl eq_refl eq_refl R),
    (run_ok w' p' eq_refl eq_refl eq_refl R').
  destruct (d_packet_timestamps buf buf' p p' Hlen Hlen' Hsame Hp Hp')
    as (-> & -> & -> & -> & -> & -> & -> & ->).
  reflexivity.
Qed.

Lemma X7_header_bytes_ignored_witness :
  run world_2024
  = run (mkWorld (Some "time.example.org:123"%string)
           (fun n => mkTime (1704067200 + Z.of_nat n) 0) None None None
           (mkIncoming (repeat xff 16 ++ skipn 16 (encode reply_2024)) EOF)).
Proof.
  exact (X7_header_bytes_ignored (Some "time.example.org:123"%string)
           (fun n => mkTime (1704067200 + Z.of_nat n) 0) None None None
           (encode reply_2024)
           (repeat xff 16 ++ skipn 16 (encode reply_2024))
           ErrDeadlineExceeded EOF eq_refl eq_refl eq_refl).
Defined.

(** ** More on the conversion *)

(** A packet that [binary.Read] filled without error has every field
    within its type. *)
Lemma binary_Read_ok_wf (r : incoming) (data p : packet) :
  binary_Read r data = (p, None) -> wf_packet p.
Proof.
  intros H.
  destruct (Nat.le_gt_cases packet_size (length (arrived r))) as [Hl|Hl].
  - destruct (binary_Read_cases r data) as [[e E]|[q [E Hd]]].
    + rewrite E in H. discriminate H.
    + rewrite E in H. injection H as <-.
      apply (d_packet_inverse (firstn packet_size (arrived r)));
        [apply firstn_length_le; exact Hl | exact Hd].
  - unfold binary_Read in H. rewrite ReadFull_short in H by assumption.
    discriminate H.
Qed.

(** X8: the conversion of [printTime] keeps the order of NTP timestamps:
    a timestamp that is not earlier as a 64-bit fixed-point number is not
    converted to an earlier time, and a later second gives a strictly later
    time. *)
Theorem X8_conversion_monotone (s f s' f' : Z)
  (Hs : is_uint32 s) (Hf : is_uint32 f)
  (Hs' : is_uint32 s') (Hf' : is_uint32 f')
  (Hle : s * 2 ^ 32 + f <= s' * 2 ^ 32 + f') :
  instant (timestampToLocalTime s f) <= instant (timestampToLocalTime s' f')
  /\ (s < s' ->
      instant (timestampToLocalTime s f) < instant (timestampToLocalTime s' f')).
Proof.
  pose proof (printTime_nanos_range f Hf) as Rf.
  pose proof (printTime_nanos_range f' Hf') as Rf'.
  rewrite !timestampToLocalTime_eq by assumption.
  rewrite <- !printTime_nanos_eq by assumption.
  unfold instant. cbn [sec nsec].
  unfold is_uint32 in *. change (2 ^ 32) with 4294967296 in *.
  split.
  - destruct (Z.eq_dec s s') as [->|Hne].
    + assert (f <= f') by lia.
      assert (printTime_nanos f <= printTime_nanos f'); [|lia].
      rewrite !printTime_nanos_eq
        by (unfold is_uint32; change (2 ^ 32) with 4294967296; lia).
      apply Z.div_le_mono; lia.
    + assert (s < s') by lia. lia.
  - intros Hlt. lia.
Qed.

Lemma X8_conversion_monotone_witness :
  instant (timestampToLocalTime 3913056000 4294967295)
  < instant (timestampToLocalTime 3913056001 0).
Proof.
  assert (H1 : is_uint32 3913056000) by (unfold is_uint32; lia).
  assert (H2 : is_uint32 4294967295) by (unfold is_uint32; lia).
  assert (H3 : is_uint32 3913056001) by (unfold is_uint32; lia).
  assert (H4 : is_uint32 0) by (unfold is_uint32; lia).
  exact (proj2 (X8_conversion_monotone 3913056000 4294967295 3913056001 0
                  H1 H2 H3 H4 ltac:(lia)) ltac:(lia)).
Defined.

(** X9: every nanosecond count in [0, 1e9) is the result of
    [(int64(f) * 1e9) >> 32] for some [uint32] fraction [f], namely the
    fraction rounded up: the conversion skips no nanosecond. *)
Theorem X9_every_nanosecond_reached (n : Z) (Hn : 0 <= n < 1000000000) :
  is_uint32 ((n * 2 ^ 32 + 999999999) / 1000000000)
  /\ printTime_nanos ((n * 2 ^ 32 + 999999999) / 1000000000) = n.
Proof.
  change (2 ^ 32) with 4294967296.
  set (f := (n * 4294967296 + 999999999) / 1000000000).
  assert (Hf : n * 4294967296 <= f * 1000000000
               < n * 4294967296 + 1000000000)
    by (subst f; Z.to_euclidean_division_equations; lia).
  assert (Hu : is_uint32 f)
    by (unfold is_uint32; change (2 ^ 32) with 4294967296; lia).
  split; [exact Hu|].
  rewrite printTime_nanos_eq by exact Hu.
  change (2 ^ 32) with 4294967296.
  Z.to_euclidean_division_equations; lia.
Qed.

Lemma X9_every_nanosecond_reached_witness :
  printTime_nanos ((123456789 * 2 ^ 32 + 999999999) / 1000000000) = 123456789.
Proof.
  exact (proj2 (X9_every_nanosecond_reached 123456789 ltac:(lia))).
Defined.

(** X10: in a run that completes with the local clock anywhere within
    7e9 seconds of the Unix epoch (about 222 years either way), neither
    [Sub] saturates: the two durations printed are the exact differences in
    nanoseconds, T2 - T1 and T3 - T4. *)
Theorem X10_durations_exact (w : world) (rsp : packet)
  (Hdial : dial_err w = None) (Hdl : setdeadline_err w = None)
  (Hwr : write_err w = None)
  (Hrd : binary_Read (reply w) zero_packet = (rsp, None))
  (H1 : - 7000000000 <= sec (clock w 2) <= 7000000000
        /\ 0 <= nsec (clock w 2) < 1000000000)
  (H4 : - 7000000000 <= sec (clock w 3) <= 7000000000
        /\ 0 <= nsec (clock w 3) < 1000000000) :
  printed_durations (trace (fst (run w)))
  = [ instant (timestampToLocalTime (RxTimeSec rsp) (RxTimeFrac rsp))
      - instant (clock w 2);
      instant (timestampToLocalTime (TxTimeSec rsp) (TxTimeFrac rsp))
      - instant (clock w 3) ].
Proof.
  rewrite (run_ok w rsp Hdial Hdl Hwr Hrd).
  destruct (binary_Read_ok_wf _ _ _ Hrd)
    as (_ & _ & _ & _ & _ & _ & _ & _ & _ & Hxs & Hxf & Hts & Htf).
  cbn [fst trace printed_durations flat_map app].
  assert (B : forall s f t, is_uint32 s -> is_uint32 f ->
                - 7000000000 <= sec t <= 7000000000 ->
                0 <= nsec t < 1000000000 ->
                Sub (timestampToLocalTime s f) t
                = instant (timestampToLocalTime s f) - instant t).
  { intros s f t Hs Hf Hsec Hnsec. apply Sub_exact.
    pose proof (printTime_nanos_range f Hf) as Rf.
    rewrite timestampToLocalTime_eq by assumption.
    rewrite <- printTime_nanos_eq by assumption.
    unfold instant, minDuration, maxDuration, ntpEpochOffset.
    cbn [sec nsec]. unfold is_uint32 in Hs.
    change (2 ^ 32) with 4294967296 in Hs.
    change (2 ^ 63) with 9223372036854775808. lia. }
  rewrite !B by (assumption || apply H1 || apply H4).
  reflexivity.
Qed.

Lemma X10_durations_exact_witness :
  printed_durations (trace (fst (run world_0_1_2_4)))
  = [ instant (mkTime 1 0) - instant (mkTime 0 0);
      instant (mkTime 2 0) - instant (mkTime 4 0) ].
Proof.
  assert (Hrd : binary_Read (reply world_0_1_2_4) zero_packet
                = (reply_1_2, None))
    by (vm_compute; reflexivity).
  exact (X10_durations_exact world_0_1_2_4 reply_1_2
           eq_refl eq_refl eq_refl Hrd
           ltac:(cbn; lia) ltac:(cbn; lia)).
Defined.

(** X11: in a run that completes, each of the four reply timestamps is
    printed as a time with nanoseconds in [0, 1e9) and seconds from
    -2208988800 (year 1900) up to, not including, 2^32 - 2208988800 (year
    2036): no reply makes the program print a time outside this era. *)
Theorem X11_printed_times_in_era (w : world)
  (Hret : snd (run w) = Returned tt) :
  length (printed_times (trace (fst (run w)))) = 5%nat
  /\ Forall (fun t => - 2208988800 <= sec t < 2 ^ 32 - 2208988800
                      /\ 0 <= nsec t < 1000000000)
            (skipn 1 (printed_times (trace (fst (run w))))).
Proof.
  destruct (run_cases w)
    as [[e H1] | [(H1 & e & H2) | [(H1 & H2 & e & H3)
        | [(H1 & H2 & H3 & e & H4) | (H1 & H2 & H3 & rsp & H4)]]]].
  - rewrite (run_dial_fails w e H1) in Hret. discriminate Hret.
  - rewrite (run_setdeadline_fails w e H1 H2) in Hret. discriminate Hret.
  - rewrite (run_write_fails w e H1 H2 H3) in Hret. discriminate Hret.
  - rewrite (run_read_fails w e H1 H2 H3 H4) in Hret. discriminate Hret.
  - rewrite (run_ok w rsp H1 H2 H3 H4).
    destruct (binary_Read_ok_wf _ _ _ H4)
      as (_ & _ & _ & _ & _ & Hrs & Hrf & Hos & Hof & Hxs & Hxf & Hts & Htf).
    split; [reflexivity|].
    cbn [fst trace printed_times flat_map app skipn].
    assert (B : forall s f, is_uint32 s -> is_uint32 f ->
                  - 2208988800 <= sec (timestampToLocalTime s f)
                                < 2 ^ 32 - 2208988800
                  /\ 0 <= nsec (timestampToLocalTime s f) < 1000000000).
    { intros s f Hs Hf. split.
      - apply (timestampToLocalTime_before_rollover s f Hs Hf).
      - rewrite timestampToLocalTime_eq by assumption. cbn [nsec].
        rewrite <- printTime_nanos_eq by assumption.
        apply printTime_nanos_range. assumption. }
    repeat (apply Forall_cons; [apply B; assumption|]).
    apply Forall_nil.
Qed.

Lemma X11_printed_times_in_era_witness :
  length (printed_times (trace (fst (run world_2024)))) = 5%nat.
Proof.
  assert (Hret : snd (run world_2024) = Returned tt)
    by (vm_compute; reflexivity).
  exact (proj1 (X11_printed_times_in_era world_2024 Hret)).
Defined.

(** ** Datagrams *)

(** Reading datagram by datagram gives what reading their bytes in a row
    gives. *)
Lemma read_datagrams_flat (ds : list (list byte)) (err : error) :
  forall (room : nat) (got : list byte),
    read_datagrams ds err room got
    = if (room <=? length (concat ds))%nat
      then inr (got ++ firstn room (concat ds))
      else inl match got ++ concat ds, err with
               | _ :: _, EOF => ErrUnexpectedEOF
               | _, e => e
               end.
Proof.
  induction ds as [|d ds IH]; intros room got.
  - destruct room; cbn [read_datagrams concat length Nat.leb].
    + rewrite firstn_O, app_nil_r. reflexivity.
    + rewrite app_nil_r. reflexivity.
  - destruct room as [|r].
    + cbn [read_datagrams Nat.leb]. rewrite firstn_O, app_nil_r. reflexivity.
    + cbn [read_datagrams concat]. rewrite IH. rewrite length_app.
      destruct (Nat.le_gt_cases (S r) (length d)) as [Hd|Hd].
      * rewrite (firstn_length_le d Hd), Nat.sub_diag.
        change (0 <=? length (concat ds))%nat with true.
        cbv iota. rewrite firstn_O, app_nil_r.
        destruct (Nat.leb_spec (S r) (length d + length (concat ds)));
          [|lia].
        rewrite (firstn_app (S r) d).
        replace (S r - length d)%nat with 0%nat by lia.
        rewrite firstn_O, app_nil_r. reflexivity.
      * rewrite (firstn_all2 d) by lia.
        rewrite <- !app_assoc, (firstn_app (S r) d), (firstn_all2 d) by lia.
        destruct (Nat.leb_spec (S r - length d) (length (concat ds)));
          destruct (Nat.leb_spec (S r) (length d + length (concat ds)));
          try lia; reflexivity.
Qed.

(** X12: on a connection that delivers whole datagrams, what [io.ReadFull]
    returns for the 48-byte buffer depends only on the bytes of the
    datagrams put end to end: a datagram shorter than 48 bytes is no error
    in itself, bytes of the datagrams after it are added until 48 are read,
    what is beyond the 48th byte is dropped, and the read fails only when
    fewer than 48 bytes come in all. *)
Theorem X12_datagrams_are_stitched (ds : list (list byte)) (err : error)
  (n : nat) :
  ReadFull_datagrams ds err n = ReadFull (mkIncoming (concat ds) err) n.
Proof.
  unfold ReadFull_datagrams, ReadFull. rewrite read_datagrams_flat.
  cbn [arrived read_err app].
  destruct (n <=? length (concat ds))%nat; [reflexivity|].
  destruct (concat ds); destruct err; reflexivity.
Qed.

